(** * kb_python: the reference-build pipeline ([kb_python/ref.py])

    A shallow embedding of [ref.py] and the properties of its two
    pipelines, [ref] and [ref_velocity], and of the writers they call.

    The Python functions act on the file system and call collaborators that
    live in other modules ([GTF], [FASTA], [utils], [config]).  Here they
    are functions in a state-and-exception monad over a [world]: the file
    system, the record of the collaborator calls made so far, and the lines
    sent to the logger.  The collaborators are the fields of a record [Env]
    which every function of the module takes as a parameter. *)

From Stdlib Require Import ZArith Ascii String.
From stdpp Require Import gmap strings list fin_maps.

(** ** Values *)

(** The exceptions of the taxonomy: a missing key of a mapping, an I/O
    failure on a path, a configuration failure, a failed tool run. *)
Inductive exn :=
| KeyError (key : string)
| IOError (path : string)
| ConfigError (msg : string)
| ToolError (status : Z).

Inductive result (A : Type) :=
| Ok (a : A)
| Err (e : exn).
Arguments Ok {A} a.
Arguments Err {A} e.

(** One record of an annotation source: [entry['feature']] and
    [entry['group']]. *)
Record entry := { feature : string; group : gmap string string }.

(** An element of a command line: [kallisto_index] passes strings and the
    integer [k]. *)
Inductive arg :=
| AStr (s : string)
| AInt (n : Z).

(** What a Python function of this module hands back: a path, or a mapping
    from artifact keys to paths. *)
Inductive pyval :=
| PyStr (s : string)
| PyDict (d : gmap string string).

(** ** The world *)

(** The calls that leave the module. *)
Inductive call :=
| Open (path : string)
| GtfEntries (gtf_path : string)
| GtfSort (gtf_path out_path : string)
| FastaEntries (fasta_path : string)
| FastaSort (fasta_path out_path : string)
| GenerateCdnaFasta (fasta_path gtf_path out_path : string)
| GenerateIntronFasta (fasta_path gtf_path out_path : string)
| ConcatenateFiles (a b out_path temp_dir : string)
| GetKallistoBinaryPath
| RunExecutable (command : list arg).

(** An event of a run: a call that returned (with the path it returned, if
    it returns one), a call that raised, or a subscript [d[key]] on a
    mapping without [key], which raises [KeyError]. *)
Inductive event :=
| Call (c : call) (ret : option string)
| Fail (c : call) (e : exn)
| KeyFail (key : string).

Definition raised_by (ev : event) : option exn :=
  match ev with
  | Call _ _ => None
  | Fail _ e => Some e
  | KeyFail k => Some (KeyError k)
  end.

Record world := World {
  fs : gmap string string;   (* path -> content *)
  trace : list event;
  log : list string
}.

(** ** The monad *)

Definition M (A : Type) : Type := world -> world * result A.

Definition ret {A} (a : A) : M A := fun w => (w, Ok a).

Definition bind {A B} (m : M A) (k : A -> M B) : M B := fun w =>
  match m w with
  | (w', Ok a) => k a w'
  | (w', Err e) => (w', Err e)
  end.

Declare Scope py_scope.
Delimit Scope py_scope with py.
Bind Scope py_scope with M.
Notation "x <- m ;; k" := (bind m (fun x => k))
  (at level 100, m at next level, k at level 200, right associativity)
  : py_scope.
Notation "m ;; k" := (bind m (fun _ => k))
  (at level 100, k at level 200, right associativity) : py_scope.
Local Open Scope py_scope.

Definition emit (ev : event) (w : world) : world :=
  {| fs := fs w; trace := trace w ++ [ev]; log := log w |}.

Definition set_fs (f : gmap string string) (w : world) : world :=
  {| fs := f; trace := trace w; log := log w |}.

(** A collaborator call: it may change the file system, and returns or
    raises; either way the call is recorded. *)
Definition ext {A} (c : call) (shown : A -> option string)
    (f : gmap string string -> gmap string string * result A) : M A := fun w =>
  match f (fs w) with
  | (fs', Ok a) => (emit (Call c (shown a)) (set_fs fs' w), Ok a)
  | (fs', Err e) => (emit (Fail c e) (set_fs fs' w), Err e)
  end.

(** [d[key]] *)
Definition getitem (d : gmap string string) (key : string) : M string := fun w =>
  match d !! key with
  | Some v => (w, Ok v)
  | None => (emit (KeyFail key) w, Err (KeyError key))
  end.

(** [logger.info(msg)] *)
Definition logger_info (msg : string) : M unit := fun w =>
  ({| fs := fs w; trace := trace w; log := log w ++ [msg] |}, Ok tt).

(** [f.write(s)] on the file opened at [path] *)
Definition f_write (path s : string) : M unit := fun w =>
  (set_fs (<[path := default "" (fs w !! path) +:+ s]> (fs w)) w, Ok tt).

(** [os.path.exists(path)] *)
Definition os_path_exists (path : string) : M bool := fun w =>
  (w, Ok (bool_decide (is_Some (fs w !! path)))).

(** [os.path.join(a, b)] (posixpath) *)
Definition starts_with_sep (s : string) : bool :=
  match s with
  | String c _ => bool_decide (c = "/"%char)
  | EmptyString => false
  end.

Fixpoint ends_with_sep (s : string) : bool :=
  match s with
  | EmptyString => false
  | String c EmptyString => bool_decide (c = "/"%char)
  | String _ s' => ends_with_sep s'
  end.

Definition os_path_join (a b : string) : string :=
  if starts_with_sep b then b
  else if bool_decide (a = "") || ends_with_sep a then a +:+ b
  else a +:+ "/" +:+ b.

(** [for x in xs: body(x)] *)
Fixpoint for_each {A} (xs : list A) (body : A -> M unit) : M unit :=
  match xs with
  | [] => ret tt
  | x :: xs' => body x ;; for_each xs' body
  end.

(** ** The collaborators *)

(** What [ref.py] imports from the rest of the package.  A source's
    [entries()] is a generator over a file: it yields a finite run of
    records and then either stops or raises.  The other collaborators map a
    file system to a file system and return or raise. *)
Record Env := {
  SORTED_FASTA_FILENAME : string;
  SORTED_GTF_FILENAME : string;
  COMBINED_FILENAME : string;
  get_kallisto_binary_path : gmap string string -> result string;
  run_executable :
    list arg -> gmap string string -> gmap string string * result unit;
  GTF_entries : gmap string string -> string -> list entry * option exn;
  GTF_sort :
    string -> string -> gmap string string -> gmap string string * result unit;
  FASTA_entries :
    gmap string string -> string -> list (string * string) * option exn;
  FASTA_sort :
    string -> string -> gmap string string -> gmap string string * result unit;
  generate_cdna_fasta :
    string -> string -> string ->
    gmap string string -> gmap string string * result string;
  generate_intron_fasta :
    string -> string -> string ->
    gmap string string -> gmap string string * result string;
  concatenate_files :
    string -> string -> string -> string ->
    gmap string string -> gmap string string * result string;
  (* whether [open(path, 'w')] succeeds *)
  writable : gmap string string -> string -> bool
}.

(** ** ref.py *)

Section Ref.

Context (E : Env).

(** [open(path, 'w')]: the file is created or truncated. *)
Definition open_w (path : string) : M unit :=
  ext (Open path) (fun _ => None) (fun f =>
    if writable E f path then (<[path := ""]> f, Ok tt)
    else (f, Err (IOError path))).

(** [for x in source.entries(): body(x)]: calling [entries()] gives the
    generator; the loop runs the body on what it yields, and the
    generator's own failure, if any, comes after the last record. *)
Definition for_entries {A} (c : call)
    (entries : gmap string string -> list A * option exn)
    (body : A -> M unit) : M unit :=
  src <- ext c (fun _ => None) (fun f => (f, Ok (entries f))) ;;
  for_each (fst src) body ;;
  match snd src with
  | Some e => ext c (fun _ : unit => None) (fun f => (f, Err e))
  | None => ret tt
  end.

Definition sort_gtf (gtf_path out_path : string) : M string :=
  ext (GtfSort gtf_path out_path) (fun _ => None) (GTF_sort E gtf_path out_path) ;;
  ret out_path.

Definition sort_fasta (fasta_path out_path : string) : M string :=
  ext (FastaSort fasta_path out_path) (fun _ => None)
      (FASTA_sort E fasta_path out_path) ;;
  ret out_path.

(** ['{}\t{}\t{}\n'.format(transcript, gene, gene_name)] *)
Definition t2g_line (transcript gene gene_name : string) : string :=
  transcript +:+ "	" +:+ gene +:+ "	" +:+ gene_name +:+ "
".

(** The body of the loop of [create_t2g_from_gtf]. *)
Definition t2g_body (t2g_path : string) (intron : bool) (entry : entry) : M unit :=
  if bool_decide (feature entry = "transcript") then
    transcript_id <- getitem (group entry) "transcript_id" ;;
    let transcript_version := group entry !! "transcript_version" in
    let transcript :=
      match transcript_version with
      | Some v => if bool_decide (v = "") then transcript_id
                  else transcript_id +:+ "." +:+ v
      | None => transcript_id
      end in
    gene_id <- getitem (group entry) "gene_id" ;;
    let gene_version := group entry !! "gene_version" in
    let gene :=
      match gene_version with
      | Some v => if bool_decide (v = "") then gene_id
                  else gene_id +:+ "." +:+ v
      | None => gene_id
      end in
    let gene_name := default "" (group entry !! "gene_name") in
    f_write t2g_path (t2g_line transcript gene gene_name) ;;
    if intron then
      f_write t2g_path (t2g_line (transcript +:+ "-I") gene gene_name)
    else ret tt
  else ret tt.

Definition create_t2g_from_gtf (gtf_path t2g_path : string) (intron : bool)
    : M (gmap string string) :=
  open_w t2g_path ;;
  for_entries (GtfEntries gtf_path) (fun f => GTF_entries E f gtf_path)
    (t2g_body t2g_path intron) ;;
  ret {[ "t2g" := t2g_path ]}.

Definition create_t2c (fasta_path t2c_path : string) : M (gmap string string) :=
  open_w t2c_path ;;
  for_entries (FastaEntries fasta_path) (fun f => FASTA_entries E f fasta_path)
    (fun '(sequence_id, _) => f_write t2c_path (sequence_id +:+ "
")) ;;
  ret {[ "t2c" := t2c_path ]}.

(** [k=31] is the default of the third parameter. *)
Definition kallisto_index (fasta_path index_path : string) (k : option Z)
    : M (gmap string string) :=
  let k := default 31%Z k in
  binary <- ext GetKallistoBinaryPath Some
              (fun f => (f, get_kallisto_binary_path E f)) ;;
  let command :=
    [AStr binary; AStr "index"; AStr "-i"; AStr index_path; AStr "-k"; AInt k;
     AStr fasta_path] in
  ext (RunExecutable command) (fun _ => None) (run_executable E command) ;;
  ret {[ "index" := index_path ]}.

Definition skip_notice (index_path : string) : string :=
  "Skipping kallisto index because " +:+ index_path +:+
  " already exists. Use the --overwrite flag to overwrite.".

(** [results.update(d)] is [d ∪ results]: the entries of [d] win. *)
Definition ref (fasta_path gtf_path cdna_path index_path t2g_path temp_dir : string)
    (overwrite : bool) : M (gmap string string) :=
  let results : gmap string string := ∅ in
  logger_info ("Creating transcript-to-gene mapping at " +:+ t2g_path) ;;
  t2g_result <- create_t2g_from_gtf gtf_path t2g_path false ;;
  let results := t2g_result ∪ results in
  present <- os_path_exists index_path ;;
  if negb present || overwrite then
    logger_info "Sorting FASTA" ;;
    sorted_fasta_path <-
      sort_fasta fasta_path (os_path_join temp_dir (SORTED_FASTA_FILENAME E)) ;;
    logger_info "Sorting GTF" ;;
    sorted_gtf_path <-
      sort_gtf gtf_path (os_path_join temp_dir (SORTED_GTF_FILENAME E)) ;;
    logger_info ("Splitting genome into cDNA at " +:+ cdna_path) ;;
    cdna_fasta_path <-
      ext (GenerateCdnaFasta sorted_fasta_path sorted_gtf_path cdna_path) Some
          (generate_cdna_fasta E sorted_fasta_path sorted_gtf_path cdna_path) ;;
    logger_info "Indexing" ;;
    index_result <- kallisto_index cdna_fasta_path index_path None ;;
    let results := index_result ∪ results in
    ret results
  else
    logger_info (skip_notice index_path) ;;
    ret results.

Definition ref_velocity
    (fasta_path gtf_path cdna_path intron_path index_path t2g_path
     cdna_t2c_path intron_t2c_path temp_dir : string) (overwrite : bool)
    : M (gmap string string) :=
  let results : gmap string string := ∅ in
  logger_info ("Creating transcript-to-gene mapping at " +:+ t2g_path) ;;
  t2g_result <- create_t2g_from_gtf gtf_path t2g_path true ;;
  let results := t2g_result ∪ results in
  present <- os_path_exists index_path ;;
  if negb present || overwrite then
    logger_info "Sorting FASTA" ;;
    sorted_fasta_path <-
      sort_fasta fasta_path (os_path_join temp_dir (SORTED_FASTA_FILENAME E)) ;;
    logger_info "Sorting GTF" ;;
    sorted_gtf_path <-
      sort_gtf gtf_path (os_path_join temp_dir (SORTED_GTF_FILENAME E)) ;;
    logger_info ("Splitting genome into cDNA at " +:+ cdna_path) ;;
    cdna_fasta_path <-
      ext (GenerateCdnaFasta sorted_fasta_path sorted_gtf_path cdna_path) Some
          (generate_cdna_fasta E sorted_fasta_path sorted_gtf_path cdna_path) ;;
    let results := {[ "cdna_fasta" := cdna_fasta_path ]} ∪ results in
    logger_info ("Creating cDNA transcripts-to-capture at " +:+ cdna_t2c_path) ;;
    cdna_t2c_result <- create_t2c cdna_fasta_path cdna_t2c_path ;;
    cdna_t2c <- getitem cdna_t2c_result "t2c" ;;
    let results := {[ "cdna_t2c" := cdna_t2c ]} ∪ results in
    logger_info ("Splitting genome into introns at " +:+ intron_path) ;;
    intron_fasta_path <-
      ext (GenerateIntronFasta sorted_fasta_path sorted_gtf_path intron_path) Some
          (generate_intron_fasta E sorted_fasta_path sorted_gtf_path intron_path) ;;
    let results := {[ "intron_fasta" := intron_fasta_path ]} ∪ results in
    logger_info ("Creating intron transcripts-to-capture at " +:+ cdna_t2c_path) ;;
    intron_t2c_result <- create_t2c intron_fasta_path intron_t2c_path ;;
    intron_t2c <- getitem intron_t2c_result "t2c" ;;
    let results := {[ "intron_t2c" := intron_t2c ]} ∪ results in
    logger_info "Concatenating cDNA and intron FASTAs" ;;
    combined_path <-
      (let out_path := os_path_join temp_dir (COMBINED_FILENAME E) in
       ext (ConcatenateFiles cdna_fasta_path intron_fasta_path out_path temp_dir)
           Some
           (concatenate_files E cdna_fasta_path intron_fasta_path out_path
              temp_dir)) ;;
    logger_info "Indexing" ;;
    index_result <- kallisto_index combined_path index_path None ;;
    let results := index_result ∪ results in
    ret results
  else
    logger_info (skip_notice index_path) ;;
    ret results.

End Ref.

(** ** A concrete environment

    Collaborators that can be run, for the examples below: the sources
    yield given records, every derivation writes a short file at its output
    path and returns that path, and the tool writes the index named after
    [-i]. *)
Module Demo.

Definition tool (command : list arg) (f : gmap string string)
    : gmap string string * result unit :=
  match command with
  | [AStr _; AStr "index"; AStr "-i"; AStr index_path; AStr "-k"; AInt _; AStr _] =>
      (<[index_path := "idx"]> f, Ok tt)
  | _ => (f, Err (ToolError 1))
  end.

Definition env (gtf : list entry * option exn)
    (cdna intron : list (string * string) * option exn) : Env := {|
  SORTED_FASTA_FILENAME := "sorted.fa";
  SORTED_GTF_FILENAME := "sorted.gtf";
  COMBINED_FILENAME := "combined.fa";
  get_kallisto_binary_path := fun _ => Ok "/bin/kallisto";
  run_executable := tool;
  GTF_entries := fun _ _ => gtf;
  GTF_sort := fun _ out f => (<[out := "gtf"]> f, Ok tt);
  FASTA_entries := fun _ p => if bool_decide (p = "cdna.fa") then cdna else intron;
  FASTA_sort := fun _ out f => (<[out := "fa"]> f, Ok tt);
  generate_cdna_fasta := fun _ _ out f => (<[out := "c"]> f, Ok out);
  generate_intron_fasta := fun _ _ out f => (<[out := "i"]> f, Ok out);
  concatenate_files := fun _ _ out _ f => (<[out := "ci"]> f, Ok out);
  writable := fun _ p => negb (bool_decide (p = ""))
|}.

Definition w0 : world := {| fs := ∅; trace := []; log := [] |}.

Definition rec1 : entry :=
  {| feature := "transcript";
     group := {[ "transcript_id" := "T1"; "transcript_version" := "2";
                 "gene_id" := "G1" ]} |}.

Definition rec2 : entry :=
  {| feature := "exon";
     group := {[ "transcript_id" := "T1"; "gene_id" := "G1" ]} |}.

Definition rec3 : entry :=
  {| feature := "transcript";
     group := {[ "transcript_id" := "ENST1"; "gene_id" := "ENSG1";
                 "gene_version" := "3"; "gene_name" := "GENE1" ]} |}.

(* a transcript record without [gene_id] *)
Definition no_gene_id : entry :=
  {| feature := "transcript"; group := {[ "transcript_id" := "T9" ]} |}.

(* a transcript record with the two identifiers and nothing else *)
Definition bare : entry :=
  {| feature := "transcript";
     group := {[ "transcript_id" := "T2"; "gene_id" := "G2" ]} |}.

End Demo.

(** ** What the loops write *)

(** What the loop of [create_t2g_from_gtf] writes for a run of records, and
    the key whose absence stops it, if any. *)
Fixpoint t2g_text (intron : bool) (es : list entry) : string * option string :=
  match es with
  | [] => ("", None)
  | e :: es' =>
      if bool_decide (feature e = "transcript") then
        match group e !! "transcript_id", group e !! "gene_id" with
        | None, _ => ("", Some "transcript_id")
        | Some _, None => ("", Some "gene_id")
        | Some tid, Some gid =>
            let t := match group e !! "transcript_version" with
                     | Some v => if bool_decide (v = "") then tid
                                 else tid +:+ "." +:+ v
                     | None => tid
                     end in
            let g := match group e !! "gene_version" with
                     | Some v => if bool_decide (v = "") then gid
                                 else gid +:+ "." +:+ v
                     | None => gid
                     end in
            let n := default "" (group e !! "gene_name") in
            let here := if intron
                        then t2g_line t g n +:+ t2g_line (t +:+ "-I") g n
                        else t2g_line t g n in
            let '(rest, stop) := t2g_text intron es' in
            (here +:+ rest, stop)
        end
      else t2g_text intron es'
  end.

(** The content of a file after a run of writes. *)
Definition written (chunks : list string) : string :=
  foldr String.append "" chunks.

Definition t2c_text (es : list (string * string)) : string :=
  written (map (fun x => x.1 +:+ "
") es).

(** The command line of [kallisto_index]. *)
Definition index_command (binary fasta_path index_path : string) (k : Z)
    : list arg :=
  [AStr binary; AStr "index"; AStr "-i"; AStr index_path; AStr "-k"; AInt k;
   AStr fasta_path].

(** ** The specification's wording of a [t2g] row *)

(** The version rule of the specification: [id.version] when a version is
    present and not empty, the bare [id] otherwise. *)
Definition spec_versioned (id : string) (version : option string) : string :=
  match version with
  | Some v => if decide (v = "") then id else id +:+ "." +:+ v
  | None => id
  end.

(** The three columns of the row of a transcript record; there are none
    when [transcript_id] or [gene_id] is missing. *)
Definition spec_fields (e : entry) : option (string * string * string) :=
  match group e !! "transcript_id", group e !! "gene_id" with
  | Some tid, Some gid =>
      Some (spec_versioned tid (group e !! "transcript_version"),
            spec_versioned gid (group e !! "gene_version"),
            default "" (group e !! "gene_name"))
  | _, _ => None
  end.

(** The lines of one transcript record: its row and, in intron mode, the
    row of the synthetic transcript right after it. *)
Definition spec_lines (intron : bool) (f : string * string * string)
    : list string :=
  let '(t, g, n) := f in
  if intron then [t2g_line t g n; t2g_line (t +:+ "-I") g n]
  else [t2g_line t g n].

Definition is_transcript (e : entry) : Prop := feature e = "transcript".

#[global] Instance is_transcript_dec e : Decision (is_transcript e).
Proof. unfold is_transcript. apply _. Defined.

(** The record of the specification's example: [transcript_id="T1"],
    [transcript_version="2"], [gene_id="G1"], no [gene_version], and a
    [gene_name] or none. *)
Definition example_record (gene_name : option string) : entry :=
  {| feature := "transcript";
     group := match gene_name with
              | Some n => <["gene_name" := n]> (group Demo.rec1)
              | None => group Demo.rec1
              end |}.

(** ** What a caller observes *)

(** What the caller of a function of the module receives, as a Python
    value: nothing when the call raised. *)
Definition returned {A} (as_value : A -> pyval) (r : world * result A)
    : option pyval :=
  match r.2 with
  | Ok a => Some (as_value a)
  | Err _ => None
  end.

(** The call an event is about. *)
Definition call_of (ev : event) : option call :=
  match ev with
  | Call c _ => Some c
  | Fail c _ => Some c
  | KeyFail _ => None
  end.

Definition add_log (msg : string) (w : world) : world :=
  {| fs := fs w; trace := trace w; log := log w ++ [msg] |}.

(** A run of events none of which raises. *)
Definition quiet (evs : list event) : Prop :=
  Forall (fun ev => raised_by ev = None) evs.

(** [m] only adds events to the record; when it returns none of them
    raises, and when it raises [e] the last of them raises [e] and none
    before it raises. *)
Definition stops_at_error {A} (m : M A) : Prop :=
  forall w, exists new,
    trace (m w).1 = trace w ++ new /\
    match (m w).2 with
    | Ok _ => quiet new
    | Err e => exists pre ev, new = pre ++ [ev] /\ quiet pre /\ raised_by ev = Some e
    end.

(** What the caller of [m] sees in world [w]: an event that raises is the
    last event of the run and its error is the outcome of the run, which
    then hands back no value; and a run that raises ends on such an
    event. *)
Definition aborts_on_error (m : M (gmap string string)) (w : world) : Prop :=
  (forall pre ev post e,
     trace (m w).1 = pre ++ ev :: post -> raised_by ev = Some e ->
     post = [] /\ (m w).2 = Err e /\ returned PyDict (m w) = None) /\
  (forall e, (m w).2 = Err e ->
     exists pre ev, trace (m w).1 = pre ++ [ev] /\ raised_by ev = Some e).

(** What the gate of a pipeline [run] does in world [w].  The storage the
    gate looks at is the one the [t2g] step leaves, which differs from the
    one the run started in at the [t2g] path only.  Once that step has
    returned, the block behind the gate is entered (its first call, the
    sort of the FASTA, is made) when the index path is absent or
    [overwrite] is set, and otherwise the run makes no further call and
    returns the manifest with the one key ['t2g'].  In a run that returns,
    the index tool has run exactly in the first case. *)
Definition index_gate (E : Env) (fasta gtf idx t2g tmp : string)
    (intron_mode overwrite : bool) (run : M (gmap string string)) (w : world)
    : Prop :=
  let at_gate := create_t2g_from_gtf E gtf t2g intron_mode w in
  let rebuild := fs at_gate.1 !! idx = None \/ overwrite = true in
  let skip := is_Some (fs at_gate.1 !! idx) /\ overwrite = false in
  let t2g_events := [Call (Open t2g) None; Call (GtfEntries gtf) None] in
  (idx <> t2g -> fs at_gate.1 !! idx = fs w !! idx) /\
  (forall m1, at_gate.2 = Ok m1 ->
     (rebuild ->
      exists ev rest,
        trace (run w).1 = trace w ++ t2g_events ++ ev :: rest /\
        call_of ev =
          Some (FastaSort fasta (os_path_join tmp (SORTED_FASTA_FILENAME E)))) /\
     (skip ->
      trace (run w).1 = trace w ++ t2g_events /\
      (run w).2 = Ok {[ "t2g" := t2g ]})) /\
  (forall m, (run w).2 = Ok m ->
     exists new,
       trace (run w).1 = trace w ++ t2g_events ++ new /\
       ((exists command, Call (RunExecutable command) None ∈ new) <-> rebuild)).

(** * Properties *)

(** ** Strings and worlds *)

Lemma append_nil_r (s : string) : s +:+ "" = s.
Proof.
  induction s as [|a s IH]; [reflexivity|].
  change (String a (s +:+ "") = String a s). by rewrite IH.
Qed.

Lemma append_assoc (s t u : string) : (s +:+ t) +:+ u = s +:+ t +:+ u.
Proof.
  induction s as [|a s IH]; [reflexivity|].
  change (String a ((s +:+ t) +:+ u) = String a (s +:+ t +:+ u)).
  by rewrite IH.
Qed.

Lemma set_fs_id (w : world) : set_fs (fs w) w = w.
Proof. by destruct w. Qed.

Lemma set_fs_set_fs (f g : gmap string string) (w : world) :
  set_fs f (set_fs g w) = set_fs f w.
Proof. reflexivity. Qed.

Lemma fs_set_fs f w : fs (set_fs f w) = f.
Proof. reflexivity. Qed.

Lemma trace_set_fs f w : trace (set_fs f w) = trace w.
Proof. reflexivity. Qed.

Lemma fs_emit ev w : fs (emit ev w) = fs w.
Proof. reflexivity. Qed.

Lemma trace_emit ev w : trace (emit ev w) = trace w ++ [ev].
Proof. reflexivity. Qed.

Lemma set_fs_emit f ev w : set_fs f (emit ev w) = emit ev (set_fs f w).
Proof. reflexivity. Qed.

Create Rewrite HintDb world.
Hint Rewrite fs_set_fs trace_set_fs fs_emit trace_emit set_fs_set_fs
  set_fs_emit : world.

(** ** Running the monad *)

Lemma bind_ok {A B} (m : M A) (k : A -> M B) w w' b :
  bind m k w = (w', Ok b) ->
  exists w1 a, m w = (w1, Ok a) /\ k a w1 = (w', Ok b).
Proof.
  unfold bind. destruct (m w) as [w1 [a|e]]; [eauto | discriminate].
Qed.

(** ** The loops of the writers *)

Lemma f_write_run p s w c :
  fs w !! p = Some c ->
  f_write p s w = (set_fs (<[p := c +:+ s]> (fs w)) w, Ok tt).
Proof. unfold f_write. by intros ->. Qed.

Lemma for_each_t2g p intron es : forall w c,
  fs w !! p = Some c ->
  for_each es (t2g_body p intron) w =
  match t2g_text intron es with
  | (s, None) => (set_fs (<[p := c +:+ s]> (fs w)) w, Ok tt)
  | (s, Some k) =>
      (emit (KeyFail k) (set_fs (<[p := c +:+ s]> (fs w)) w), Err (KeyError k))
  end.
Proof.
  induction es as [|e es IH]; intros w c Hc; simpl.
  { rewrite append_nil_r, insert_id, set_fs_id by done. done. }
  unfold t2g_body at 1. case_bool_decide as Hf; simpl.
  2: { unfold bind at 1, ret at 1. by apply IH. }
  unfold bind at 1, bind at 1, getitem at 1.
  destruct (group e !! "transcript_id") as [tid|] eqn:Ht; simpl.
  2: { by rewrite append_nil_r, insert_id, set_fs_id. }
  unfold bind at 1, getitem at 1.
  destruct (group e !! "gene_id") as [gid|] eqn:Hg; simpl.
  2: { by rewrite append_nil_r, insert_id, set_fs_id. }
  set (t := match group e !! "transcript_version" with
            | Some v => _ | None => _ end).
  set (g := match group e !! "gene_version" with
            | Some v => _ | None => _ end).
  set (n := default "" (group e !! "gene_name")).
  unfold bind at 1. rewrite (f_write_run _ _ _ c Hc).
  destruct intron.
  - rewrite (f_write_run _ _ _ (c +:+ t2g_line t g n))
      by (rewrite fs_set_fs; apply lookup_insert_eq).
    rewrite (IH _ ((c +:+ t2g_line t g n) +:+ t2g_line (t +:+ "-I") g n))
      by (rewrite fs_set_fs; apply lookup_insert_eq).
    destruct (t2g_text true es) as [rest [k|]];
      autorewrite with world; by rewrite !insert_insert_eq, !append_assoc.
  - unfold ret at 1.
    rewrite (IH _ (c +:+ t2g_line t g n))
      by (rewrite fs_set_fs; apply lookup_insert_eq).
    destruct (t2g_text false es) as [rest [k|]];
      autorewrite with world; by rewrite !insert_insert_eq, !append_assoc.
Qed.

Lemma for_each_t2c p es : forall w c,
  fs w !! p = Some c ->
  for_each es (fun '(sequence_id, _) => f_write p (sequence_id +:+ "
")) w = (set_fs (<[p := c +:+ t2c_text es]> (fs w)) w, Ok tt).
Proof.
  induction es as [|[i b] es IH]; intros w c Hc; simpl.
  { unfold t2c_text; simpl.
    rewrite append_nil_r, insert_id, set_fs_id by done. done. }
  unfold bind at 1. rewrite (f_write_run _ _ _ c Hc).
  rewrite (IH _ (c +:+ i +:+ "
")) by (rewrite fs_set_fs; apply lookup_insert_eq).
  autorewrite with world. rewrite insert_insert_eq.
  unfold t2c_text; simpl. by rewrite !append_assoc.
Qed.

(** ** The writers, run *)

Section Writers.

Context (E : Env).

Lemma open_w_run p w :
  open_w E p w =
  if writable E (fs w) p
  then (emit (Call (Open p) None) (set_fs (<[p := ""]> (fs w)) w), Ok tt)
  else (emit (Fail (Open p) (IOError p)) w, Err (IOError p)).
Proof.
  unfold open_w, ext. destruct (writable E (fs w) p); [done|].
  by rewrite set_fs_id.
Qed.

(** A run of [create_t2g_from_gtf], in full. *)
Lemma create_t2g_from_gtf_run gtf p intron w :
  create_t2g_from_gtf E gtf p intron w =
  if writable E (fs w) p then
    let src := GTF_entries E (<[p := ""]> (fs w)) gtf in
    let opened := [Call (Open p) None; Call (GtfEntries gtf) None] in
    match t2g_text intron src.1, src.2 with
    | (s, Some k), _ =>
        ({| fs := <[p := s]> (fs w); trace := trace w ++ opened ++ [KeyFail k];
            log := log w |}, Err (KeyError k))
    | (s, None), Some e =>
        ({| fs := <[p := s]> (fs w);
            trace := trace w ++ opened ++ [Fail (GtfEntries gtf) e];
            log := log w |}, Err e)
    | (s, None), None =>
        ({| fs := <[p := s]> (fs w); trace := trace w ++ opened; log := log w |},
         Ok {[ "t2g" := p ]})
    end
  else (emit (Fail (Open p) (IOError p)) w, Err (IOError p)).
Proof.
  unfold create_t2g_from_gtf. unfold bind at 1. rewrite open_w_run.
  destruct (writable E (fs w) p); [|done].
  unfold bind at 1, for_entries, bind at 1, ext at 1.
  autorewrite with world.
  destruct (GTF_entries E (<[p:=""]> (fs w)) gtf) as [es stop]; simpl fst; simpl snd.
  unfold bind at 1.
  rewrite (for_each_t2g _ _ _ _ "") by (autorewrite with world; apply lookup_insert_eq).
  destruct (t2g_text intron es) as [s [k|]];
    autorewrite with world; rewrite insert_insert_eq.
  { unfold emit, set_fs; simpl. by rewrite <- !app_assoc. }
  destruct stop as [e|].
  - unfold ext, emit, set_fs; simpl. by rewrite <- !app_assoc.
  - unfold ret, emit, set_fs; simpl. by rewrite <- !app_assoc.
Qed.

(** A run of [create_t2c], in full. *)
Lemma create_t2c_run fasta p w :
  create_t2c E fasta p w =
  if writable E (fs w) p then
    let src := FASTA_entries E (<[p := ""]> (fs w)) fasta in
    let opened := [Call (Open p) None; Call (FastaEntries fasta) None] in
    match src.2 with
    | Some e =>
        ({| fs := <[p := t2c_text src.1]> (fs w);
            trace := trace w ++ opened ++ [Fail (FastaEntries fasta) e];
            log := log w |}, Err e)
    | None =>
        ({| fs := <[p := t2c_text src.1]> (fs w); trace := trace w ++ opened;
            log := log w |}, Ok {[ "t2c" := p ]})
    end
  else (emit (Fail (Open p) (IOError p)) w, Err (IOError p)).
Proof.
  unfold create_t2c. unfold bind at 1. rewrite open_w_run.
  destruct (writable E (fs w) p); [|done].
  unfold bind at 1, for_entries, bind at 1, ext at 1.
  autorewrite with world.
  destruct (FASTA_entries E (<[p:=""]> (fs w)) fasta) as [es stop];
    simpl fst; simpl snd.
  unfold bind at 1.
  rewrite (for_each_t2c _ _ _ "") by (autorewrite with world; apply lookup_insert_eq).
  autorewrite with world. rewrite insert_insert_eq.
  destruct stop as [e|].
  - unfold ext, emit, set_fs; simpl. by rewrite <- !app_assoc.
  - unfold ret, emit, set_fs; simpl. by rewrite <- !app_assoc.
Qed.

(** A run of [kallisto_index], in full. *)
Lemma kallisto_index_run fasta idx k w :
  kallisto_index E fasta idx k w =
  match get_kallisto_binary_path E (fs w) with
  | Err e => (emit (Fail GetKallistoBinaryPath e) w, Err e)
  | Ok binary =>
      let command := index_command binary fasta idx (default 31%Z k) in
      let w1 := emit (Call GetKallistoBinaryPath (Some binary)) w in
      match run_executable E command (fs w) with
      | (f, Ok _) =>
          (emit (Call (RunExecutable command) None) (set_fs f w1),
           Ok {[ "index" := idx ]})
      | (f, Err e) =>
          (emit (Fail (RunExecutable command) e) (set_fs f w1), Err e)
      end
  end.
Proof.
  unfold kallisto_index, index_command. unfold bind at 1, ext at 1.
  destruct (get_kallisto_binary_path E (fs w)) as [b|e]; rewrite set_fs_id; [|done].
  unfold bind at 1, ext at 1. autorewrite with world.
  by destruct (run_executable E _ (fs w)) as [f [[]|e]].
Qed.

End Writers.

Lemma written_app l1 l2 : written (l1 ++ l2) = written l1 +:+ written l2.
Proof.
  induction l1 as [|x l1 IH]; [done|].
  unfold written in *; simpl. by rewrite IH, append_assoc.
Qed.

Lemma t2g_text_rows intron es s :
  t2g_text intron es = (s, None) ->
  exists rows,
    Forall2 (fun e r => spec_fields e = Some r) (filter is_transcript es) rows /\
    s = written (flat_map (spec_lines intron) rows).
Proof.
  revert s. induction es as [|e es IH]; intros s; simpl.
  { intros [= <-]. exists []. split; [constructor | done]. }
  case_bool_decide as Hf.
  2: { intros H. destruct (IH _ H) as (rows & HF & ->).
       exists rows. by rewrite filter_cons_False. }
  destruct (group e !! "transcript_id") as [tid|] eqn:Ht; [|done].
  destruct (group e !! "gene_id") as [gid|] eqn:Hg; [|done].
  destruct (t2g_text intron es) as [rest stop].
  intros [= <- ->]. destruct (IH _ eq_refl) as (rows & HF & ->).
  eexists (_ :: rows). rewrite filter_cons_True by done. split.
  - constructor; [|done]. unfold spec_fields. by rewrite Ht, Hg.
  - change (flat_map ?f (?x :: ?l)) with (f x ++ flat_map f l).
    rewrite written_app. f_equal. unfold spec_lines, spec_versioned.
    destruct (group e !! "transcript_version") as [tv|];
      destruct (group e !! "gene_version") as [gv|];
      repeat case_bool_decide; repeat case_decide; try done;
      destruct intron; unfold written; simpl; by rewrite ?append_nil_r.
Qed.

Lemma t2g_text_stop intron es s k :
  t2g_text intron es = (s, Some k) -> k = "transcript_id" \/ k = "gene_id".
Proof.
  revert s. induction es as [|e es IH]; intros s; simpl; [done|].
  case_bool_decide; [|by eauto].
  destruct (group e !! "transcript_id"); [|intros [= _ <-]; by left].
  destruct (group e !! "gene_id"); [|intros [= _ <-]; by right].
  destruct (t2g_text intron es) as [rest stop].
  intros [= _ ->]. by eapply IH.
Qed.

Lemma t2g_text_bad intron es e :
  e ∈ es -> feature e = "transcript" ->
  group e !! "transcript_id" = None \/ group e !! "gene_id" = None ->
  exists s k, t2g_text intron es = (s, Some k).
Proof.
  intros Hin Hf Hbad. induction Hin as [e es|e e' es Hin IH]; simpl.
  - rewrite bool_decide_eq_true_2 by done.
    destruct (group e !! "transcript_id"); [|by eauto].
    destruct Hbad as [ ? | -> ]; [done | by eauto].
  - destruct (IH Hf Hbad) as (s & k & ->).
    case_bool_decide; [|by eauto].
    destruct (group e' !! "transcript_id"); [|by eauto].
    destruct (group e' !! "gene_id"); by eauto.
Qed.

Lemma t2g_text_good intron es :
  (forall e, e ∈ es -> feature e = "transcript" ->
     is_Some (group e !! "transcript_id") /\ is_Some (group e !! "gene_id")) ->
  exists s, t2g_text intron es = (s, None).
Proof.
  induction es as [|e es IH]; intros Hall; simpl; [by eauto|].
  destruct IH as [s Hs]. { intros e' ?. apply Hall. by right. }
  rewrite Hs. case_bool_decide as Hf; [|by eauto].
  destruct (Hall e) as [[tid ->] [gid ->]]; [by left | done | by eauto].
Qed.

(** ** The transcript-to-gene writer *)

Lemma t2g_body_run p intron e w c tid gid :
  feature e = "transcript" ->
  group e !! "transcript_id" = Some tid ->
  group e !! "gene_id" = Some gid ->
  fs w !! p = Some c ->
  t2g_body p intron e w =
  (set_fs (<[p := c +:+ written (spec_lines intron
       (spec_versioned tid (group e !! "transcript_version"),
        spec_versioned gid (group e !! "gene_version"),
        default "" (group e !! "gene_name")))]> (fs w)) w, Ok tt).
Proof.
  intros Hf Ht Hg Hc. unfold t2g_body.
  rewrite bool_decide_eq_true_2 by done.
  unfold bind at 1, getitem at 1. rewrite Ht.
  unfold bind at 1, getitem at 1. rewrite Hg.
  unfold bind at 1. rewrite (f_write_run _ _ _ c Hc).
  assert (Hv : forall i v,
    match v with
    | Some v => if bool_decide (v = "") then i else i +:+ "." +:+ v
    | None => i
    end = spec_versioned i v).
  { intros i [v|]; [|done]. unfold spec_versioned.
    case_bool_decide; by case_decide. }
  rewrite !Hv. destruct intron; simpl.
  - erewrite f_write_run by (rewrite fs_set_fs; apply lookup_insert_eq).
    autorewrite with world. rewrite insert_insert_eq.
    unfold written; simpl. by rewrite append_nil_r, append_assoc.
  - unfold ret, written; simpl. by rewrite append_nil_r.
Qed.

(** C2.  In a run of [create_t2g_from_gtf] that returns, the file holds,
    for the records of the source whose feature is ['transcript'] and in
    their order, one line each when [intron] is false and two when it is
    true: the row of the record and right after it the row of the same
    gene and gene name whose transcript has ['-I'] appended.  Records of
    another feature give no line. *)
Theorem create_t2g_from_gtf_lines E gtf p intron w m :
  (create_t2g_from_gtf E gtf p intron w).2 = Ok m ->
  let es := (GTF_entries E (<[p := ""]> (fs w)) gtf).1 in
  let w' := (create_t2g_from_gtf E gtf p intron w).1 in
  exists rows lines,
    Forall2 (fun e r => spec_fields e = Some r) (filter is_transcript es) rows /\
    lines = flat_map (spec_lines intron) rows /\
    fs w' !! p = Some (written lines) /\
    length lines = (if intron then 2 else 1) * length (filter is_transcript es).
Proof.
  rewrite create_t2g_from_gtf_run. intros H es w'. subst es w'.
  destruct (writable E (fs w) p); [|done]. cbv zeta in *.
  destruct (GTF_entries E (<[p:=""]> (fs w)) gtf) as [es stop].
  simpl fst in *; simpl snd in *.
  destruct (t2g_text intron es) as [s [k|]] eqn:Ht; [done|].
  destruct stop; [done|]. simpl.
  destruct (t2g_text_rows _ _ _ Ht) as (rows & HF & ->).
  exists rows, (flat_map (spec_lines intron) rows).
  split_and!; [done | done | apply lookup_insert_eq |].
  rewrite (Forall2_length _ _ _ HF). clear.
  induction rows as [|[[t g] n] rows IH]; [by destruct intron|].
  change (flat_map ?f (?x :: ?l)) with (f x ++ flat_map f l).
  rewrite length_app, IH. destruct intron; simpl; lia.
Qed.

Lemma create_t2g_from_gtf_lines_witness :
  let E := Demo.env ([Demo.rec1; Demo.rec2; Demo.rec3], None) ([], None) ([], None) in
  let es := (GTF_entries E (<["t2g.txt" := ""]> (fs Demo.w0)) "a.gtf").1 in
  let w' := (create_t2g_from_gtf E "a.gtf" "t2g.txt" true Demo.w0).1 in
  exists rows lines,
    Forall2 (fun e r => spec_fields e = Some r) (filter is_transcript es) rows /\
    lines = flat_map (spec_lines true) rows /\
    fs w' !! "t2g.txt" = Some (written lines) /\
    length lines = 2 * length (filter is_transcript es).
Proof.
  apply (create_t2g_from_gtf_lines
    (Demo.env ([Demo.rec1; Demo.rec2; Demo.rec3], None) ([], None) ([], None))
    "a.gtf" "t2g.txt" true Demo.w0 {[ "t2g" := "t2g.txt" ]}).
  vm_compute. reflexivity.
Defined.

(** C3.  For a transcript record the loop writes the row whose transcript
    column is [transcript_id.transcript_version] when the version is
    present and not empty and the bare [transcript_id] when it is absent
    or empty, and whose gene column follows the same rule on its own; the
    record of the example gives the row [T1.2<TAB>G1<TAB>gene_name]. *)
Theorem t2g_version_rule p intron e w c tid gid :
  feature e = "transcript" ->
  group e !! "transcript_id" = Some tid ->
  group e !! "gene_id" = Some gid ->
  fs w !! p = Some c ->
  (exists transcript gene,
    t2g_body p intron e w =
      (set_fs (<[p := c +:+ written (spec_lines intron
         (transcript, gene, default "" (group e !! "gene_name")))]> (fs w)) w,
       Ok tt) /\
    (forall v, group e !! "transcript_version" = Some v -> v ≠ "" ->
       transcript = tid +:+ "." +:+ v) /\
    (group e !! "transcript_version" = None \/
     group e !! "transcript_version" = Some "" -> transcript = tid) /\
    (forall v, group e !! "gene_version" = Some v -> v ≠ "" ->
       gene = gid +:+ "." +:+ v) /\
    (group e !! "gene_version" = None \/
     group e !! "gene_version" = Some "" -> gene = gid)) /\
  (forall name,
    t2g_body p false (example_record name) w =
      (set_fs (<[p := c +:+ "T1.2	G1	" +:+ default "" name +:+ "
"]> (fs w)) w, Ok tt)).
Proof.
  intros Hf Ht Hg Hc. split.
  - eexists _, _. split; [by apply t2g_body_run|].
    unfold spec_versioned. split_and!.
    + intros v -> ?. by case_decide.
    + intros [-> | ->]; [done | by case_decide].
    + intros v -> ?. by case_decide.
    + intros [-> | ->]; [done | by case_decide].
  - intros name.
    rewrite (t2g_body_run p false (example_record name) w c "T1" "G1");
      [| done | by destruct name | by destruct name | done].
    assert (Hl : forall k, k ≠ "gene_name" ->
      group (example_record name) !! k = group Demo.rec1 !! k).
    { intros k Hk. destruct name; [|done]. simpl. by rewrite lookup_insert_ne. }
    rewrite !Hl by done.
    assert (Hn : default "" (group (example_record name) !! "gene_name")
                 = default "" name).
    { destruct name; simpl; [by rewrite lookup_insert_eq | done]. }
    rewrite Hn.
    replace (group Demo.rec1 !! "transcript_version") with (Some "2")
      by (vm_compute; reflexivity).
    replace (group Demo.rec1 !! "gene_version") with (@None string)
      by (vm_compute; reflexivity).
    unfold spec_versioned. case_decide; [done|].
    unfold written; simpl. by rewrite append_nil_r.
Qed.

Lemma t2g_version_rule_witness :
  t2g_body "t2g.txt" false Demo.rec3
    {| fs := {[ "t2g.txt" := "" ]}; trace := []; log := [] |} =
  ({| fs := {[ "t2g.txt" := "ENST1	ENSG1.3	GENE1
" ]}; trace := []; log := [] |}, Ok tt).
Proof.
  destruct (t2g_version_rule "t2g.txt" false Demo.rec3
    {| fs := {[ "t2g.txt" := "" ]}; trace := []; log := [] |} ""
    "ENST1" "ENSG1") as [(t & g & Hrun & Ht1 & Ht2 & Hg1 & Hg2) _];
    [reflexivity | reflexivity | reflexivity | reflexivity |].
  rewrite Hrun, (Ht2 (or_introl eq_refl)), (Hg1 "3" eq_refl ltac:(discriminate)).
  vm_compute. reflexivity.
Defined.

(** C7.  When the source yields a transcript record without
    [transcript_id] or without [gene_id], [create_t2g_from_gtf] raises:
    the error reaches the caller, and once the output file is open it is
    the [KeyError] of the missing key.  When every transcript record has
    both identifiers the call returns, whatever the records hold for
    [transcript_version], [gene_version] and [gene_name]; a missing
    [gene_name] is written as the empty string. *)
Theorem create_t2g_from_gtf_missing_key E gtf p intron w :
  let es := (GTF_entries E (<[p := ""]> (fs w)) gtf).1 in
  ((exists e, e ∈ es /\ feature e = "transcript" /\
      (group e !! "transcript_id" = None \/ group e !! "gene_id" = None)) ->
   exists w' err,
     create_t2g_from_gtf E gtf p intron w = (w', Err err) /\
     (writable E (fs w) p = true ->
      err = KeyError "transcript_id" \/ err = KeyError "gene_id")) /\
  ((forall e, e ∈ es -> feature e = "transcript" ->
      is_Some (group e !! "transcript_id") /\ is_Some (group e !! "gene_id")) ->
   writable E (fs w) p = true ->
   (GTF_entries E (<[p := ""]> (fs w)) gtf).2 = None ->
   exists w', create_t2g_from_gtf E gtf p intron w = (w', Ok {[ "t2g" := p ]})) /\
  (forall e c tid gid w1,
     feature e = "transcript" ->
     group e !! "transcript_id" = Some tid -> group e !! "gene_id" = Some gid ->
     group e !! "gene_name" = None -> fs w1 !! p = Some c ->
     t2g_body p false e w1 =
       (set_fs (<[p := c +:+ t2g_line
            (spec_versioned tid (group e !! "transcript_version"))
            (spec_versioned gid (group e !! "gene_version")) ""]> (fs w1)) w1,
        Ok tt)).
Proof.
  intros es. subst es. rewrite create_t2g_from_gtf_run. split_and!.
  - intros (e & Hin & Hf & Hbad).
    destruct (writable E (fs w) p); [|eexists _, _; by split]. cbv zeta.
    destruct (t2g_text_bad intron _ _ Hin Hf Hbad) as (s & k & Hk).
    rewrite Hk. eexists _, _. split; [done|]. intros _.
    destruct (t2g_text_stop _ _ _ _ Hk) as [-> | ->]; by eauto.
  - intros Hall -> Hstop. cbv zeta.
    destruct (t2g_text_good intron _ Hall) as [s ->]. rewrite Hstop. by eauto.
  - intros e c tid gid w1 Hf Ht Hg Hn Hc.
    rewrite (t2g_body_run p false e w1 c tid gid) by done.
    rewrite Hn. unfold written; simpl. by rewrite append_nil_r.
Qed.

Lemma create_t2g_from_gtf_missing_key_witness :
  (exists w' err,
     create_t2g_from_gtf
       (Demo.env ([Demo.rec1; Demo.no_gene_id], None) ([], None) ([], None))
       "a.gtf" "t2g.txt" false Demo.w0 = (w', Err err) /\
     (err = KeyError "transcript_id" \/ err = KeyError "gene_id")) /\
  (exists w',
     create_t2g_from_gtf
       (Demo.env ([Demo.bare; Demo.rec2], None) ([], None) ([], None))
       "a.gtf" "t2g.txt" false Demo.w0 = (w', Ok {[ "t2g" := "t2g.txt" ]})).
Proof.
  split.
  - destruct (create_t2g_from_gtf_missing_key
      (Demo.env ([Demo.rec1; Demo.no_gene_id], None) ([], None) ([], None))
      "a.gtf" "t2g.txt" false Demo.w0) as [H _].
    destruct H as (w' & err & Hrun & Herr).
    { exists Demo.no_gene_id. split; [|split].
      - right; left.
      - reflexivity.
      - right. vm_compute. reflexivity. }
    exists w', err. split; [exact Hrun | apply Herr; reflexivity].
  - destruct (create_t2g_from_gtf_missing_key
      (Demo.env ([Demo.bare; Demo.rec2], None) ([], None) ([], None))
      "a.gtf" "t2g.txt" false Demo.w0) as (_ & H & _).
    apply H; [| reflexivity | reflexivity].
    intros e He Hf. simpl in He.
    apply elem_of_cons in He as [-> | He].
    { split; eexists; vm_compute; reflexivity. }
    apply elem_of_cons in He as [-> | He]; [discriminate Hf|].
    by apply elem_of_nil in He.
Defined.

(** C9, as the code has it.  A call of [create_t2g_from_gtf] that returns
    gives the mapping with the one key ['t2g'], whose value is the output
    path it was given. *)
Theorem create_t2g_from_gtf_returns E gtf p intron w m :
  (create_t2g_from_gtf E gtf p intron w).2 = Ok m ->
  m = {[ "t2g" := p ]} /\
  returned PyDict (create_t2g_from_gtf E gtf p intron w)
    = Some (PyDict {[ "t2g" := p ]}).
Proof.
  unfold returned. rewrite create_t2g_from_gtf_run.
  destruct (writable E (fs w) p); [|done]. cbv zeta.
  destruct (t2g_text intron _) as [s [k|]]; [done|].
  destruct (GTF_entries E _ gtf).2; [done|]. simpl. by intros [= <-].
Qed.

Lemma create_t2g_from_gtf_returns_witness :
  let E := Demo.env ([Demo.rec1], None) ([], None) ([], None) in
  ({[ "t2g" := "t2g.txt" ]} : gmap string string) = {[ "t2g" := "t2g.txt" ]} /\
  returned PyDict (create_t2g_from_gtf E "a.gtf" "t2g.txt" false Demo.w0)
    = Some (PyDict {[ "t2g" := "t2g.txt" ]}).
Proof.
  apply (create_t2g_from_gtf_returns
    (Demo.env ([Demo.rec1], None) ([], None) ([], None))
    "a.gtf" "t2g.txt" false Demo.w0 {[ "t2g" := "t2g.txt" ]}).
  vm_compute. reflexivity.
Defined.

(** C9, as stated, fails: the call returns a mapping, not the path. *)
Lemma create_t2g_from_gtf_returns_path_fails :
  let r :=
    returned PyDict
      (create_t2g_from_gtf (Demo.env ([Demo.rec1], None) ([], None) ([], None))
         "a.gtf" "t2g.txt" false Demo.w0) in
  r = Some (PyDict {[ "t2g" := "t2g.txt" ]}) /\ r <> Some (PyStr "t2g.txt").
Proof. split; vm_compute; [reflexivity | discriminate]. Qed.

(** ** The transcript-to-capture writer *)

Lemma t2c_text_ids es :
  t2c_text es = written (map (fun i => i +:+ "
") (map fst es)).
Proof. unfold t2c_text. by rewrite map_map. Qed.

Lemma create_t2c_content E fasta p w :
  writable E (fs w) p = true ->
  fs (create_t2c E fasta p w).1 !! p =
  Some (t2c_text (FASTA_entries E (<[p := ""]> (fs w)) fasta).1).
Proof.
  intros Hw. rewrite create_t2c_run, Hw. cbv zeta.
  destruct (FASTA_entries E _ fasta).2; simpl; apply lookup_insert_eq.
Qed.

Lemma create_t2c_ok_writable E fasta p w m :
  (create_t2c E fasta p w).2 = Ok m -> writable E (fs w) p = true.
Proof.
  rewrite create_t2c_run. by destruct (writable E (fs w) p).
Qed.

(** C4.  In a run of [create_t2c] that returns, the file holds one line
    for each record of the source, the record's [sequence_id] and a
    newline, in the order of the source; nothing is dropped, so an id that
    comes twice is written twice.  Two such runs to the same destination
    over a source that yields the same records leave the same content. *)
Theorem create_t2c_lines E fasta p w m :
  (create_t2c E fasta p w).2 = Ok m ->
  let entries := (FASTA_entries E (<[p := ""]> (fs w)) fasta).1 in
  let lines := map (fun i => i +:+ "
") (map fst entries) in
  fs (create_t2c E fasta p w).1 !! p = Some (written lines) /\
  length lines = length entries /\
  (forall w2 m2,
     (create_t2c E fasta p w2).2 = Ok m2 ->
     (FASTA_entries E (<[p := ""]> (fs w2)) fasta).1 = entries ->
     fs (create_t2c E fasta p w2).1 !! p = fs (create_t2c E fasta p w).1 !! p).
Proof.
  intros Hok entries lines. subst entries lines.
  pose proof (create_t2c_ok_writable _ _ _ _ _ Hok) as Hw.
  rewrite (create_t2c_content _ _ _ _ Hw), t2c_text_ids.
  split_and!; [done | by rewrite !length_map |].
  intros w2 m2 Hok2 Hsame.
  pose proof (create_t2c_ok_writable _ _ _ _ _ Hok2) as Hw2.
  by rewrite (create_t2c_content _ _ _ _ Hw2), Hsame, t2c_text_ids.
Qed.

Lemma create_t2c_lines_witness :
  let E := Demo.env ([], None)
             ([("T1", "ACGT"); ("T2", "GG"); ("T1", "ACGT")], None) ([], None) in
  let w1 := (create_t2c E "cdna.fa" "c.t2c" Demo.w0).1 in
  fs w1 !! "c.t2c" = Some "T1
T2
T1
" /\
  fs (create_t2c E "cdna.fa" "c.t2c" w1).1 !! "c.t2c" = fs w1 !! "c.t2c".
Proof.
  intros E w1.
  destruct (create_t2c_lines E "cdna.fa" "c.t2c" Demo.w0 {[ "t2c" := "c.t2c" ]})
    as (Hc & _ & Hsame); [vm_compute; reflexivity|].
  split; [exact Hc|].
  apply (Hsame w1 {[ "t2c" := "c.t2c" ]}); vm_compute; reflexivity.
Defined.

(** C10.  What [create_t2c] writes is a function of the ids the source
    yields, in their order: two runs, in any two environments and worlds,
    over sources that yield the same ids with whatever bodies, leave the
    same content in their output files. *)
Theorem create_t2c_ids_only Ea Eb fasta_a fasta_b pa pb wa wb :
  writable Ea (fs wa) pa = true ->
  writable Eb (fs wb) pb = true ->
  map fst (FASTA_entries Ea (<[pa := ""]> (fs wa)) fasta_a).1 =
  map fst (FASTA_entries Eb (<[pb := ""]> (fs wb)) fasta_b).1 ->
  fs (create_t2c Ea fasta_a pa wa).1 !! pa =
  fs (create_t2c Eb fasta_b pb wb).1 !! pb.
Proof.
  intros Ha Hb Hids.
  by rewrite (create_t2c_content _ _ _ _ Ha), (create_t2c_content _ _ _ _ Hb),
    !t2c_text_ids, Hids.
Qed.

Lemma create_t2c_ids_only_witness :
  fs (create_t2c
        (Demo.env ([], None) ([("T1", "ACGT"); ("T2", "GG")], None) ([], None))
        "cdna.fa" "a.t2c" Demo.w0).1 !! "a.t2c" =
  fs (create_t2c
        (Demo.env ([], None) ([], None) ([("T1", "TTTT"); ("T2", "")], None))
        "intron.fa" "b.t2c"
        {| fs := {[ "b.t2c" := "old" ]}; trace := []; log := [] |}).1 !! "b.t2c".
Proof.
  apply create_t2c_ids_only; vm_compute; reflexivity.
Defined.

(** ** The index *)

(** C8, as the code has it.  [kallisto_index] resolves the binary and runs
    the tool once, on the command line made of the binary, ['index'],
    ['-i'] and the index path, ['-k'] and the k-mer size (31 when none is
    given), and the sequence path.  It returns [{'index': index_path}]
    when the run succeeds; when the binary does not resolve the tool is
    not run, and when the run fails it is not run again: either error
    reaches the caller. *)
Theorem kallisto_index_invocation E fasta idx k w :
  let w' := (kallisto_index E fasta idx k w).1 in
  let r := (kallisto_index E fasta idx k w).2 in
  match get_kallisto_binary_path E (fs w) with
  | Err e =>
      r = Err e /\ trace w' = trace w ++ [Fail GetKallistoBinaryPath e]
  | Ok binary =>
      let command :=
        [AStr binary; AStr "index"; AStr "-i"; AStr idx; AStr "-k";
         AInt (default 31%Z k); AStr fasta] in
      match (run_executable E command (fs w)).2 with
      | Ok _ =>
          r = Ok {[ "index" := idx ]} /\
          trace w' = trace w ++ [Call GetKallistoBinaryPath (Some binary);
                                 Call (RunExecutable command) None]
      | Err e =>
          r = Err e /\
          trace w' = trace w ++ [Call GetKallistoBinaryPath (Some binary);
                                 Fail (RunExecutable command) e]
      end
  end.
Proof.
  intros w' r. subst w' r. rewrite kallisto_index_run.
  destruct (get_kallisto_binary_path E (fs w)) as [b|e]; [|done].
  cbv zeta. unfold index_command.
  destruct (run_executable E _ (fs w)) as [f [[]|e]]; simpl;
    by rewrite <- app_assoc.
Qed.

(** C8, as stated, fails: the command line is not the list of the binary,
    ['index'], the index path, the k-mer size and the sequence path. *)
Lemma kallisto_index_command_five_fails :
  let E := Demo.env ([], None) ([], None) ([], None) in
  let w' := (kallisto_index E "cdna.fa" "idx" None Demo.w0).1 in
  trace w' =
    [Call GetKallistoBinaryPath (Some "/bin/kallisto");
     Call (RunExecutable
             [AStr "/bin/kallisto"; AStr "index"; AStr "-i"; AStr "idx";
              AStr "-k"; AInt 31; AStr "cdna.fa"]) None] /\
  forall r,
    Call (RunExecutable
            [AStr "/bin/kallisto"; AStr "index"; AStr "idx"; AInt 31;
             AStr "cdna.fa"]) r ∉ trace w'.
Proof.
  intros E w'. assert (Ht : trace w' = [Call GetKallistoBinaryPath (Some "/bin/kallisto");
     Call (RunExecutable
             [AStr "/bin/kallisto"; AStr "index"; AStr "-i"; AStr "idx";
              AStr "-k"; AInt 31; AStr "cdna.fa"]) None])
    by (vm_compute; reflexivity).
  split; [exact Ht|]. intros r Hin. rewrite Ht in Hin.
  apply elem_of_cons in Hin as [Hin | Hin]; [discriminate Hin|].
  apply elem_of_cons in Hin as [Hin | Hin]; [discriminate Hin|].
  by apply elem_of_nil in Hin.
Qed.

(** ** Errors stop a run *)

Lemma stops_ret {A} (a : A) : stops_at_error (ret a).
Proof.
  intros w. exists []. simpl. split; [by rewrite app_nil_r | constructor].
Qed.

Lemma stops_bind {A B} (m : M A) (k : A -> M B) :
  stops_at_error m -> (forall a, stops_at_error (k a)) ->
  stops_at_error (bind m k).
Proof.
  intros Hm Hk w. unfold bind. destruct (Hm w) as (new & Ht & Hr).
  destruct (m w) as [w1 [a|e]]; simpl in *.
  - destruct (Hk a w1) as (new' & Ht' & Hr').
    exists (new ++ new'). rewrite Ht', Ht, app_assoc. split; [done|].
    destruct (k a w1).2 as [b|e].
    + by apply Forall_app.
    + destruct Hr' as (pre & ev & -> & Hq & He).
      exists (new ++ pre), ev. rewrite app_assoc. split_and!; [done| |done].
      by apply Forall_app.
  - by exists new.
Qed.

Lemma stops_ext {A} c shown (f : gmap string string -> gmap string string * result A) :
  stops_at_error (ext c shown f).
Proof.
  intros w. unfold ext. destruct (f (fs w)) as [f' [a|e]]; simpl.
  - exists [Call c (shown a)]. split; [done|]. by repeat constructor.
  - exists [Fail c e]. split; [done|]. exists [], (Fail c e). by repeat constructor.
Qed.

Lemma stops_getitem d key : stops_at_error (getitem d key).
Proof.
  intros w. unfold getitem. destruct (d !! key); simpl.
  - exists []. split; [by rewrite app_nil_r | constructor].
  - exists [KeyFail key]. split; [done|]. exists [], (KeyFail key).
    by repeat constructor.
Qed.

Lemma stops_logger_info msg : stops_at_error (logger_info msg).
Proof.
  intros w. exists []. simpl. split; [by rewrite app_nil_r | constructor].
Qed.

Lemma stops_f_write p s : stops_at_error (f_write p s).
Proof.
  intros w. exists []. simpl. split; [by rewrite app_nil_r | constructor].
Qed.

Lemma stops_os_path_exists p : stops_at_error (os_path_exists p).
Proof.
  intros w. exists []. simpl. split; [by rewrite app_nil_r | constructor].
Qed.

Lemma stops_for_each {A} (xs : list A) body :
  (forall x, stops_at_error (body x)) -> stops_at_error (for_each xs body).
Proof.
  intros Hb. induction xs as [|x xs IH]; simpl.
  - apply stops_ret.
  - apply stops_bind; [apply Hb | by intros _].
Qed.

Create HintDb stops.
#[global] Hint Resolve stops_ret stops_ext stops_getitem stops_logger_info
  stops_f_write stops_os_path_exists : stops.

Lemma stops_for_entries {A} c (entries : gmap string string -> list A * option exn)
    body :
  (forall x, stops_at_error (body x)) -> stops_at_error (for_entries c entries body).
Proof.
  intros Hb. unfold for_entries.
  apply stops_bind; [apply stops_ext | intros src].
  apply stops_bind; [by apply stops_for_each | intros _].
  destruct src.2; [apply stops_ext | apply stops_ret].
Qed.

(** Break a computation of the module into its steps. *)
Ltac stops :=
  repeat first
    [ progress eauto with stops
    | apply stops_for_entries; intros ?
    | apply stops_bind; [|intros ?]
    | match goal with
      | |- stops_at_error (if ?b then _ else _) => destruct b
      | |- stops_at_error (match ?o with Some _ => _ | None => _ end) => destruct o
      | |- stops_at_error (let '(_, _) := ?x in _) => destruct x
      end ].

Lemma stops_t2g_body p intron e : stops_at_error (t2g_body p intron e).
Proof. unfold t2g_body. stops. Qed.

Lemma stops_create_t2g_from_gtf E gtf p intron :
  stops_at_error (create_t2g_from_gtf E gtf p intron).
Proof.
  unfold create_t2g_from_gtf, open_w. stops. apply stops_t2g_body.
Qed.

Lemma stops_create_t2c E fasta p : stops_at_error (create_t2c E fasta p).
Proof. unfold create_t2c, open_w. stops. Qed.

Lemma stops_kallisto_index E fasta idx k : stops_at_error (kallisto_index E fasta idx k).
Proof. unfold kallisto_index. stops. Qed.

Lemma stops_sort_fasta E a b : stops_at_error (sort_fasta E a b).
Proof. unfold sort_fasta. stops. Qed.

Lemma stops_sort_gtf E a b : stops_at_error (sort_gtf E a b).
Proof. unfold sort_gtf. stops. Qed.

#[global] Hint Resolve stops_create_t2g_from_gtf stops_create_t2c
  stops_kallisto_index stops_sort_fasta stops_sort_gtf : stops.

Lemma stops_ref E fasta gtf cdna idx t2g tmp overwrite :
  stops_at_error (ref E fasta gtf cdna idx t2g tmp overwrite).
Proof. unfold ref. stops. Qed.

Lemma stops_ref_velocity E fasta gtf cdna intron idx t2g ct2c it2c tmp overwrite :
  stops_at_error
    (ref_velocity E fasta gtf cdna intron idx t2g ct2c it2c tmp overwrite).
Proof. unfold ref_velocity. stops. Qed.

Lemma quiet_snoc_unique (l pre post : list event) (x ev : event) :
  quiet l -> raised_by ev <> None ->
  l ++ [x] = pre ++ ev :: post -> post = [] /\ ev = x.
Proof.
  intros Hq Hev Heq. destruct post as [|y post _] using rev_ind.
  - by apply app_inj_tail in Heq as [_ ->].
  - rewrite app_comm_cons, app_assoc in Heq.
    apply app_inj_tail in Heq as [-> _].
    apply Forall_app in Hq as [_ Hq]. apply Forall_cons in Hq as [Hq _].
    by destruct Hev.
Qed.

Lemma stops_aborts (m : M (gmap string string)) w :
  stops_at_error m -> quiet (trace w) -> aborts_on_error m w.
Proof.
  intros Hm Hq. destruct (Hm w) as (new & Ht & Hr).
  unfold aborts_on_error, returned. split.
  - intros pre ev post e Heq Hev. rewrite Ht in Heq.
    destruct (m w).2 as [a|e'].
    + assert (Hin : ev ∈ trace w ++ new).
      { rewrite Heq. apply elem_of_app. right. by left. }
      assert (Hall : quiet (trace w ++ new)) by by apply Forall_app.
      unfold quiet in Hall. rewrite Forall_forall in Hall.
      specialize (Hall _ Hin). congruence.
    + destruct Hr as (pre' & ev' & -> & Hq' & He').
      rewrite app_assoc in Heq.
      apply quiet_snoc_unique in Heq as [-> ->];
        [| by apply Forall_app | congruence].
      split_and!; [done | congruence | done].
  - intros e He. rewrite He in Hr. destruct Hr as (pre & ev & -> & _ & Hev).
    exists (trace w ++ pre), ev. by rewrite Ht, app_assoc.
Qed.

(** C6.  In a run of [ref] or of [ref_velocity], an event that raises is
    the last event of the run: no step follows it, the same call is not
    made again, and its error is what the caller gets in place of a
    manifest.  Conversely a run that raises ends on the event that raised
    its error. *)
Theorem pipeline_aborts_on_error E fasta gtf cdna intron idx t2g ct2c it2c tmp
    overwrite w :
  quiet (trace w) ->
  aborts_on_error (ref E fasta gtf cdna idx t2g tmp overwrite) w /\
  aborts_on_error
    (ref_velocity E fasta gtf cdna intron idx t2g ct2c it2c tmp overwrite) w.
Proof.
  intros Hq. split; apply stops_aborts; auto using stops_ref, stops_ref_velocity.
Qed.

Lemma pipeline_aborts_on_error_witness :
  let E := Demo.env ([Demo.rec1; Demo.no_gene_id], None) ([], None) ([], None) in
  let run := ref E "g.fa" "a.gtf" "cdna.fa" "idx" "t2g.txt" "tmp" true in
  trace (run Demo.w0).1 =
    [Call (Open "t2g.txt") None; Call (GtfEntries "a.gtf") None;
     KeyFail "gene_id"] /\
  (run Demo.w0).2 = Err (KeyError "gene_id") /\
  returned PyDict (run Demo.w0) = None.
Proof.
  intros E run.
  assert (Ht : trace (run Demo.w0).1 =
    [Call (Open "t2g.txt") None; Call (GtfEntries "a.gtf") None] ++
    KeyFail "gene_id" :: []) by (vm_compute; reflexivity).
  split; [exact Ht|].
  destruct (pipeline_aborts_on_error E "g.fa" "a.gtf" "cdna.fa" "intron.fa"
    "idx" "t2g.txt" "c.t2c" "i.t2c" "tmp" true Demo.w0) as [[Hlast _] _];
    [constructor|].
  destruct (Hlast _ _ _ (KeyError "gene_id") Ht eq_refl) as (_ & Hr & Hn).
  split; [exact Hr | exact Hn].
Defined.

(** ** The pipelines, run *)

Lemma fs_add_log msg w : fs (add_log msg w) = fs w.
Proof. reflexivity. Qed.

Lemma trace_add_log msg w : trace (add_log msg w) = trace w.
Proof. reflexivity. Qed.

Hint Rewrite fs_add_log trace_add_log : world.

Lemma run_eq {A} (m : M A) w a : (m w).2 = Ok a -> m w = ((m w).1, Ok a).
Proof. destruct (m w) as [w' r]. simpl. by intros ->. Qed.

Lemma ret_inv {A} (a b : A) w w' : ret a w = (w', Ok b) -> w' = w /\ b = a.
Proof. by intros [= -> ->]. Qed.

Lemma logger_info_inv msg w w' a :
  logger_info msg w = (w', Ok a) -> w' = add_log msg w.
Proof. by intros [= <-]. Qed.

Lemma ext_inv {A} c shown (f : gmap string string -> gmap string string * result A)
    w w' a :
  ext c shown f w = (w', Ok a) -> trace w' = trace w ++ [Call c (shown a)].
Proof.
  unfold ext. destruct (f (fs w)) as [f' [a'|e]]; [|done].
  by intros [= <- <-].
Qed.

Lemma getitem_inv d key w w' v :
  getitem d key w = (w', Ok v) -> w' = w /\ d !! key = Some v.
Proof. unfold getitem. destruct (d !! key); [|done]. by intros [= <- <-]. Qed.

Lemma os_path_exists_inv p w w' b :
  os_path_exists p w = (w', Ok b) ->
  w' = w /\ b = bool_decide (is_Some (fs w !! p)).
Proof. by intros [= <- <-]. Qed.

Lemma sort_fasta_inv E a b w w' r :
  sort_fasta E a b w = (w', Ok r) ->
  r = b /\ trace w' = trace w ++ [Call (FastaSort a b) None].
Proof.
  unfold sort_fasta. intros H. apply bind_ok in H as (w1 & [] & H1 & H).
  apply ret_inv in H as [-> ->]. by apply ext_inv in H1.
Qed.

Lemma sort_gtf_inv E a b w w' r :
  sort_gtf E a b w = (w', Ok r) ->
  r = b /\ trace w' = trace w ++ [Call (GtfSort a b) None].
Proof.
  unfold sort_gtf. intros H. apply bind_ok in H as (w1 & [] & H1 & H).
  apply ret_inv in H as [-> ->]. by apply ext_inv in H1.
Qed.

Lemma create_t2g_from_gtf_inv E gtf p intron w w' m :
  create_t2g_from_gtf E gtf p intron w = (w', Ok m) ->
  m = {[ "t2g" := p ]} /\
  trace w' = trace w ++ [Call (Open p) None; Call (GtfEntries gtf) None] /\
  fs w' = <[p := (t2g_text intron
                    (GTF_entries E (<[p := ""]> (fs w)) gtf).1).1]> (fs w).
Proof.
  rewrite create_t2g_from_gtf_run.
  destruct (writable E (fs w) p); [|done]. cbv zeta.
  destruct (t2g_text intron _) as [s [k|]]; [done|].
  destruct (GTF_entries E _ gtf).2; [done|]. by intros [= <- <-].
Qed.

Lemma create_t2c_inv E fasta p w w' m :
  create_t2c E fasta p w = (w', Ok m) ->
  m = {[ "t2c" := p ]} /\
  trace w' = trace w ++ [Call (Open p) None; Call (FastaEntries fasta) None].
Proof.
  rewrite create_t2c_run.
  destruct (writable E (fs w) p); [|done]. cbv zeta.
  destruct (FASTA_entries E _ fasta).2; [done|]. by intros [= <- <-].
Qed.

Lemma kallisto_index_inv E fasta idx k w w' m :
  kallisto_index E fasta idx k w = (w', Ok m) ->
  m = {[ "index" := idx ]} /\
  exists binary,
    trace w' = trace w ++
      [Call GetKallistoBinaryPath (Some binary);
       Call (RunExecutable (index_command binary fasta idx (default 31%Z k))) None].
Proof.
  rewrite kallisto_index_run.
  destruct (get_kallisto_binary_path E (fs w)) as [b|e]; [|done]. cbv zeta.
  destruct (run_executable E _ (fs w)) as [f [[]|e]]; [|done].
  intros [= <- <-]. split; [done|]. exists b. simpl. by rewrite <- app_assoc.
Qed.

Lemma create_t2g_from_gtf_add_log E gtf p intron msg w :
  create_t2g_from_gtf E gtf p intron (add_log msg w) =
  (add_log msg (create_t2g_from_gtf E gtf p intron w).1,
   (create_t2g_from_gtf E gtf p intron w).2).
Proof.
  rewrite !create_t2g_from_gtf_run. simpl fs.
  destruct (writable E (fs w) p); [|done]. cbv zeta.
  destruct (t2g_text intron _) as [s [k|]]; [done|].
  by destruct (GTF_entries E _ gtf).2.
Qed.

Lemma create_t2g_from_gtf_other E gtf p intron w q :
  q <> p -> fs (create_t2g_from_gtf E gtf p intron w).1 !! q = fs w !! q.
Proof.
  intros Hq. rewrite create_t2g_from_gtf_run.
  destruct (writable E (fs w) p); [|done]. cbv zeta.
  destruct (t2g_text intron _) as [s [k|]]; [by apply lookup_insert_ne|].
  destruct (GTF_entries E _ gtf).2; by apply lookup_insert_ne.
Qed.

(** The block behind the gate starts by sorting the FASTA. *)
Lemma sort_fasta_first {B} E msg a b (K : string -> M B) w :
  (forall x, stops_at_error (K x)) ->
  exists ev rest,
    trace (bind (logger_info msg) (fun _ => bind (sort_fasta E a b) K) w).1 =
      trace w ++ ev :: rest /\
    call_of ev = Some (FastaSort a b).
Proof.
  intros HK. unfold bind at 1. simpl. unfold bind at 1, sort_fasta, bind at 1, ext.
  simpl. destruct (FASTA_sort E a b (fs w)) as [f [[]|e]]; simpl.
  - match goal with |- context [K b ?v] => destruct (HK b v) as (new & -> & _) end.
    simpl. rewrite <- app_assoc. by eexists _, _.
  - by eexists _, [].
Qed.

Lemma union_singleton_empty (k v : string) :
  ({[ k := v ]} : gmap string string) ∪ ∅ = {[ k := v ]}.
Proof. apply (right_id ∅ (∪)). Qed.

Lemma bind_logger_info {B} msg (k : unit -> M B) w :
  bind (logger_info msg) k w = k tt (add_log msg w).
Proof. reflexivity. Qed.

Lemma bind_os_path_exists {B} p (k : bool -> M B) w :
  bind (os_path_exists p) k w = k (bool_decide (is_Some (fs w !! p))) w.
Proof. reflexivity. Qed.

Lemma gate_open (o : option string) (overwrite : bool) :
  o = None \/ overwrite = true ->
  negb (bool_decide (is_Some o)) || overwrite = true.
Proof.
  intros [-> | ->]; [|by apply orb_true_r].
  rewrite bool_decide_eq_false_2; [done | by intros [? ?]].
Qed.

Section Pipelines.

Context (E : Env).
Context (fasta gtf cdna intron idx t2g ct2c it2c tmp : string) (overwrite : bool).

Let sorted_fasta := os_path_join tmp (SORTED_FASTA_FILENAME E).
Let sorted_gtf := os_path_join tmp (SORTED_GTF_FILENAME E).
Let combined := os_path_join tmp (COMBINED_FILENAME E).
Let t2g_events := [Call (Open t2g) None; Call (GtfEntries gtf) None].

(** A run of [ref] that returns either skipped the block behind the gate
    or went through all of it. *)
Lemma ref_ok w w' m :
  ref E fasta gtf cdna idx t2g tmp overwrite w = (w', Ok m) ->
  let gate_fs := fs (create_t2g_from_gtf E gtf t2g false w).1 in
  (is_Some (gate_fs !! idx) /\ overwrite = false /\
   trace w' = trace w ++ t2g_events /\ m = {[ "t2g" := t2g ]}) \/
  ((gate_fs !! idx = None \/ overwrite = true) /\
   exists cdna_fasta binary,
     trace w' = trace w ++ t2g_events ++
       [Call (FastaSort fasta sorted_fasta) None;
        Call (GtfSort gtf sorted_gtf) None;
        Call (GenerateCdnaFasta sorted_fasta sorted_gtf cdna) (Some cdna_fasta);
        Call GetKallistoBinaryPath (Some binary);
        Call (RunExecutable (index_command binary cdna_fasta idx 31)) None] /\
     m = {[ "index" := idx; "t2g" := t2g ]}).
Proof.
  intros H gate_fs. unfold ref in H.
  apply bind_ok in H as (w0 & [] & H0 & H). apply logger_info_inv in H0 as ->.
  apply bind_ok in H as (w1 & m1 & H1 & H).
  rewrite create_t2g_from_gtf_add_log in H1. injection H1 as <- H1.
  apply run_eq, create_t2g_from_gtf_inv in H1 as (-> & Ht1 & _).
  apply bind_ok in H as (w2 & present & H2 & H).
  apply os_path_exists_inv in H2 as [-> ->].
  rewrite fs_add_log in H. fold gate_fs in H.
  rewrite union_singleton_empty in H.
  destruct (negb (bool_decide (is_Some (gate_fs !! idx))) || overwrite) eqn:Hgate.
  - right. split.
    { apply orb_true_iff in Hgate as [Hg | Hg]; [left | by right].
      apply negb_true_iff, bool_decide_eq_false in Hg.
      by apply eq_None_not_Some. }
    apply bind_ok in H as (w3 & [] & H3 & H). apply logger_info_inv in H3 as ->.
    apply bind_ok in H as (w4 & sf & H4 & H).
    apply sort_fasta_inv in H4 as [-> Ht4].
    apply bind_ok in H as (w5 & [] & H5 & H). apply logger_info_inv in H5 as ->.
    apply bind_ok in H as (w6 & sg & H6 & H).
    apply sort_gtf_inv in H6 as [-> Ht6].
    apply bind_ok in H as (w7 & [] & H7 & H). apply logger_info_inv in H7 as ->.
    apply bind_ok in H as (w8 & cdna_fasta & H8 & H). apply ext_inv in H8.
    apply bind_ok in H as (w9 & [] & H9 & H). apply logger_info_inv in H9 as ->.
    apply bind_ok in H as (w10 & mi & H10 & H).
    apply kallisto_index_inv in H10 as (-> & binary & Ht10).
    apply ret_inv in H as [-> ->].
    exists cdna_fasta, binary. split.
    + rewrite Ht10, trace_add_log, H8, trace_add_log, Ht6, trace_add_log, Ht4,
        !trace_add_log, Ht1.
      subst t2g_events. by rewrite <- !app_assoc.
    + by rewrite <- insert_union_singleton_l.
  - left. apply orb_false_iff in Hgate as [Hg ->].
    apply negb_false_iff, bool_decide_eq_true in Hg.
    apply bind_ok in H as (w3 & [] & H3 & H). apply logger_info_inv in H3 as ->.
    apply ret_inv in H as [-> ->]. by rewrite !trace_add_log, Ht1.
Qed.

(** A run of [ref_velocity] that returns either skipped the block behind
    the gate or went through all of it. *)
Lemma ref_velocity_ok w w' m :
  ref_velocity E fasta gtf cdna intron idx t2g ct2c it2c tmp overwrite w
    = (w', Ok m) ->
  let gate_fs := fs (create_t2g_from_gtf E gtf t2g true w).1 in
  (is_Some (gate_fs !! idx) /\ overwrite = false /\
   trace w' = trace w ++ t2g_events /\ m = {[ "t2g" := t2g ]}) \/
  ((gate_fs !! idx = None \/ overwrite = true) /\
   exists cdna_fasta intron_fasta combined_path binary,
     trace w' = trace w ++ t2g_events ++
       [Call (FastaSort fasta sorted_fasta) None;
        Call (GtfSort gtf sorted_gtf) None;
        Call (GenerateCdnaFasta sorted_fasta sorted_gtf cdna) (Some cdna_fasta);
        Call (Open ct2c) None;
        Call (FastaEntries cdna_fasta) None;
        Call (GenerateIntronFasta sorted_fasta sorted_gtf intron)
          (Some intron_fasta);
        Call (Open it2c) None;
        Call (FastaEntries intron_fasta) None;
        Call (ConcatenateFiles cdna_fasta intron_fasta combined tmp)
          (Some combined_path);
        Call GetKallistoBinaryPath (Some binary);
        Call (RunExecutable (index_command binary combined_path idx 31)) None] /\
     m = {[ "index" := idx; "intron_t2c" := it2c;
            "intron_fasta" := intron_fasta; "cdna_t2c" := ct2c;
            "cdna_fasta" := cdna_fasta; "t2g" := t2g ]}).
Proof.
  intros H gate_fs. unfold ref_velocity in H.
  apply bind_ok in H as (w0 & [] & H0 & H). apply logger_info_inv in H0 as ->.
  apply bind_ok in H as (w1 & m1 & H1 & H).
  rewrite create_t2g_from_gtf_add_log in H1. injection H1 as <- H1.
  apply run_eq, create_t2g_from_gtf_inv in H1 as (-> & Ht1 & _).
  apply bind_ok in H as (w2 & present & H2 & H).
  apply os_path_exists_inv in H2 as [-> ->].
  rewrite fs_add_log in H. fold gate_fs in H.
  rewrite union_singleton_empty in H.
  destruct (negb (bool_decide (is_Some (gate_fs !! idx))) || overwrite) eqn:Hgate.
  - right. split.
    { apply orb_true_iff in Hgate as [Hg | Hg]; [left | by right].
      apply negb_true_iff, bool_decide_eq_false in Hg.
      by apply eq_None_not_Some. }
    apply bind_ok in H as (w3 & [] & H3 & H). apply logger_info_inv in H3 as ->.
    apply bind_ok in H as (w4 & sf & H4 & H).
    apply sort_fasta_inv in H4 as [-> Ht4].
    apply bind_ok in H as (w5 & [] & H5 & H). apply logger_info_inv in H5 as ->.
    apply bind_ok in H as (w6 & sg & H6 & H).
    apply sort_gtf_inv in H6 as [-> Ht6].
    apply bind_ok in H as (w7 & [] & H7 & H). apply logger_info_inv in H7 as ->.
    apply bind_ok in H as (w8 & cdna_fasta & H8 & H). apply ext_inv in H8.
    apply bind_ok in H as (w9 & [] & H9 & H). apply logger_info_inv in H9 as ->.
    apply bind_ok in H as (w10 & mc & H10 & H).
    apply create_t2c_inv in H10 as [-> Ht10].
    apply bind_ok in H as (w11 & cdna_t2c & H11 & H).
    apply getitem_inv in H11 as [-> H11].
    rewrite lookup_singleton_eq in H11. injection H11 as <-.
    apply bind_ok in H as (w12 & [] & H12 & H). apply logger_info_inv in H12 as ->.
    apply bind_ok in H as (w13 & intron_fasta & H13 & H). apply ext_inv in H13.
    apply bind_ok in H as (w14 & [] & H14 & H). apply logger_info_inv in H14 as ->.
    apply bind_ok in H as (w15 & mi & H15 & H).
    apply create_t2c_inv in H15 as [-> Ht15].
    apply bind_ok in H as (w16 & intron_t2c & H16 & H).
    apply getitem_inv in H16 as [-> H16].
    rewrite lookup_singleton_eq in H16. injection H16 as <-.
    apply bind_ok in H as (w17 & [] & H17 & H). apply logger_info_inv in H17 as ->.
    apply bind_ok in H as (w18 & combined_path & H18 & H). apply ext_inv in H18.
    apply bind_ok in H as (w19 & [] & H19 & H). apply logger_info_inv in H19 as ->.
    apply bind_ok in H as (w20 & mx & H20 & H).
    apply kallisto_index_inv in H20 as (-> & binary & Ht20).
    apply ret_inv in H as [-> ->].
    exists cdna_fasta, intron_fasta, combined_path, binary. split.
    + rewrite Ht20, trace_add_log, H18, trace_add_log, Ht15, trace_add_log, H13,
        trace_add_log, Ht10, trace_add_log, H8, trace_add_log, Ht6,
        trace_add_log, Ht4, !trace_add_log, Ht1.
      subst t2g_events. by rewrite <- !app_assoc.
    + by rewrite <- !insert_union_singleton_l.
  - left. apply orb_false_iff in Hgate as [Hg ->].
    apply negb_false_iff, bool_decide_eq_true in Hg.
    apply bind_ok in H as (w3 & [] & H3 & H). apply logger_info_inv in H3 as ->.
    apply ret_inv in H as [-> ->]. by rewrite !trace_add_log, Ht1.
Qed.

(** Run a pipeline up to the gate, the [t2g] step having returned. *)
Ltac to_gate H1 :=
  rewrite bind_logger_info; unfold bind at 1;
  rewrite create_t2g_from_gtf_add_log, H1; cbv iota beta;
  rewrite bind_os_path_exists, fs_add_log.

(** Behind the gate: the first call sorts the FASTA. *)
Ltac first_call :=
  lazymatch goal with
  | |- context [bind (logger_info ?msg) ?F ?v] =>
      let body := eval cbv beta in (F tt) in
      lazymatch body with
      | bind (sort_fasta _ ?a ?b) ?K =>
          let HK := fresh "HK" in
          assert (HK : forall x, stops_at_error (K x)) by (intros ?; stops);
          destruct (sort_fasta_first E msg a b K v HK) as (ev & rest & Hev & Hc)
      end
  end.

(** What the gate of [ref] decides once the [t2g] step has returned,
    whatever happens behind it. *)
Lemma ref_gate w m1 :
  (create_t2g_from_gtf E gtf t2g false w).2 = Ok m1 ->
  let run := ref E fasta gtf cdna idx t2g tmp overwrite in
  let gate_fs := fs (create_t2g_from_gtf E gtf t2g false w).1 in
  (gate_fs !! idx = None \/ overwrite = true ->
   exists ev rest,
     trace (run w).1 = trace w ++ t2g_events ++ ev :: rest /\
     call_of ev = Some (FastaSort fasta sorted_fasta)) /\
  (is_Some (gate_fs !! idx) -> overwrite = false ->
   trace (run w).1 = trace w ++ t2g_events /\
   (run w).2 = Ok {[ "t2g" := t2g ]}).
Proof.
  intros H1 run gate_fs. subst run.
  pose proof (run_eq _ _ _ H1) as H1'.
  apply create_t2g_from_gtf_inv in H1' as (-> & Ht1 & _).
  split.
  - intros Hre. unfold ref. to_gate H1. fold gate_fs.
    rewrite (gate_open _ _ Hre).
    first_call. rewrite Hev, trace_add_log, Ht1. exists ev, rest.
    subst t2g_events. by rewrite <- !app_assoc.
  - intros Hs ->.
    assert (Hr : ref E fasta gtf cdna idx t2g tmp false w =
      (add_log (skip_notice idx)
         (add_log ("Creating transcript-to-gene mapping at " +:+ t2g)
            (create_t2g_from_gtf E gtf t2g false w).1),
       Ok {[ "t2g" := t2g ]})).
    { unfold ref. to_gate H1. fold gate_fs.
      rewrite bool_decide_eq_true_2 by done. simpl.
      by rewrite union_singleton_empty. }
    rewrite Hr. simpl. by rewrite Ht1.
Qed.

(** The same for [ref_velocity]. *)
Lemma ref_velocity_gate w m1 :
  (create_t2g_from_gtf E gtf t2g true w).2 = Ok m1 ->
  let run :=
    ref_velocity E fasta gtf cdna intron idx t2g ct2c it2c tmp overwrite in
  let gate_fs := fs (create_t2g_from_gtf E gtf t2g true w).1 in
  (gate_fs !! idx = None \/ overwrite = true ->
   exists ev rest,
     trace (run w).1 = trace w ++ t2g_events ++ ev :: rest /\
     call_of ev = Some (FastaSort fasta sorted_fasta)) /\
  (is_Some (gate_fs !! idx) -> overwrite = false ->
   trace (run w).1 = trace w ++ t2g_events /\
   (run w).2 = Ok {[ "t2g" := t2g ]}).
Proof.
  intros H1 run gate_fs. subst run.
  pose proof (run_eq _ _ _ H1) as H1'.
  apply create_t2g_from_gtf_inv in H1' as (-> & Ht1 & _).
  split.
  - intros Hre. unfold ref_velocity. to_gate H1. fold gate_fs.
    rewrite (gate_open _ _ Hre).
    first_call. rewrite Hev, trace_add_log, Ht1. exists ev, rest.
    subst t2g_events. by rewrite <- !app_assoc.
  - intros Hs ->.
    assert (Hr : ref_velocity E fasta gtf cdna intron idx t2g ct2c it2c tmp false w =
      (add_log (skip_notice idx)
         (add_log ("Creating transcript-to-gene mapping at " +:+ t2g)
            (create_t2g_from_gtf E gtf t2g true w).1),
       Ok {[ "t2g" := t2g ]})).
    { unfold ref_velocity. to_gate H1. fold gate_fs.
      rewrite bool_decide_eq_true_2 by done. simpl.
      by rewrite union_singleton_empty. }
    rewrite Hr. simpl. by rewrite Ht1.
Qed.

End Pipelines.

(** ** The gate on the index *)

Lemma not_rebuild_skip (o : option string) (overwrite : bool) :
  is_Some o -> overwrite = false -> ~ (o = None \/ overwrite = true).
Proof. intros [v ->] -> [? | ?]; discriminate. Qed.

(** C1.  For [ref] and for [ref_velocity]: the index is rebuilt exactly
    when the index path is absent from storage or [overwrite] is true; when
    it is not, the run makes no call after those of the [t2g] step (no
    sort, extraction, capture list, concatenation or indexing) and returns
    the manifest [{'t2g': t2g_path}], with none of the other keys. *)
Theorem index_rebuilt_iff E fasta gtf cdna intron idx t2g ct2c it2c tmp overwrite w :
  index_gate E fasta gtf idx t2g tmp false overwrite
    (ref E fasta gtf cdna idx t2g tmp overwrite) w /\
  index_gate E fasta gtf idx t2g tmp true overwrite
    (ref_velocity E fasta gtf cdna intron idx t2g ct2c it2c tmp overwrite) w.
Proof.
  split; unfold index_gate; cbv zeta; split_and!.
  - by apply create_t2g_from_gtf_other.
  - intros m1 H1. destruct (ref_gate E fasta gtf cdna idx t2g tmp overwrite w m1 H1)
      as [Hre Hskip].
    split; [exact Hre | intros [? ?]; by apply Hskip].
  - intros m Hm. apply run_eq, ref_ok in Hm
      as [(Hs & Ho & -> & _) | (Hre & cf & b & -> & _)].
    + exists []. rewrite app_nil_r. split; [done|]. split.
      * intros [c Hc]. by apply elem_of_nil in Hc.
      * intros Hre. by destruct (not_rebuild_skip _ _ Hs Ho).
    + eexists. split; [done|]. split; [done|]. intros _.
      eexists. do 4 right. left.
  - by apply create_t2g_from_gtf_other.
  - intros m1 H1.
    destruct (ref_velocity_gate E fasta gtf cdna intron idx t2g ct2c it2c tmp
      overwrite w m1 H1) as [Hre Hskip].
    split; [exact Hre | intros [? ?]; by apply Hskip].
  - intros m Hm. apply run_eq, ref_velocity_ok in Hm
      as [(Hs & Ho & -> & _) | (Hre & cf & inf & cp & b & -> & _)].
    + exists []. rewrite app_nil_r. split; [done|]. split.
      * intros [c Hc]. by apply elem_of_nil in Hc.
      * intros Hre. by destruct (not_rebuild_skip _ _ Hs Ho).
    + eexists. split; [done|]. split; [done|]. intros _.
      eexists. do 10 right. left.
Qed.

Lemma index_rebuilt_iff_witness :
  let E := Demo.env ([Demo.rec1], None) ([("T1", "ACGT")], None)
             ([("T1-I", "AC")], None) in
  let w := {| fs := {[ "idx" := "old" ]}; trace := []; log := [] |} in
  let run := ref E "g.fa" "a.gtf" "cdna.fa" "idx" "t2g.txt" "tmp" false in
  let run_velocity :=
    ref_velocity E "g.fa" "a.gtf" "cdna.fa" "intron.fa" "idx" "t2g.txt"
      "c.t2c" "i.t2c" "tmp" false in
  (trace (run w).1 =
     [Call (Open "t2g.txt") None; Call (GtfEntries "a.gtf") None] /\
   (run w).2 = Ok {[ "t2g" := "t2g.txt" ]}) /\
  (trace (run_velocity w).1 =
     [Call (Open "t2g.txt") None; Call (GtfEntries "a.gtf") None] /\
   (run_velocity w).2 = Ok {[ "t2g" := "t2g.txt" ]}).
Proof.
  intros E w run run_velocity.
  destruct (index_rebuilt_iff E "g.fa" "a.gtf" "cdna.fa" "intron.fa" "idx"
    "t2g.txt" "c.t2c" "i.t2c" "tmp" false w) as [(_ & Hs & _) (_ & Hv & _)].
  split.
  - destruct (Hs {[ "t2g" := "t2g.txt" ]}) as [_ Hskip];
      [vm_compute; reflexivity|].
    apply Hskip. split; [|reflexivity]. exists "old". vm_compute. reflexivity.
  - destruct (Hv {[ "t2g" := "t2g.txt" ]}) as [_ Hskip];
      [vm_compute; reflexivity|].
    apply Hskip. split; [|reflexivity]. exists "old". vm_compute. reflexivity.
Defined.

(** C5.  A run of [ref_velocity] that rebuilds and returns has made, after
    the [t2g] step and the two sorts, these calls in this order: the cDNA
    extraction, the capture list read from the file that extraction
    returned, the intron extraction, the capture list read from the file
    that extraction returned, the concatenation of the two files, and the
    index tool on the file the concatenation returned.  Its manifest has
    the six keys. *)
Theorem ref_velocity_rebuild E fasta gtf cdna intron idx t2g ct2c it2c tmp
    overwrite w m :
  let run :=
    ref_velocity E fasta gtf cdna intron idx t2g ct2c it2c tmp overwrite in
  let sorted_fasta := os_path_join tmp (SORTED_FASTA_FILENAME E) in
  let sorted_gtf := os_path_join tmp (SORTED_GTF_FILENAME E) in
  (run w).2 = Ok m ->
  fs (create_t2g_from_gtf E gtf t2g true w).1 !! idx = None \/ overwrite = true ->
  exists cdna_fasta intron_fasta combined binary,
    trace (run w).1 = trace w ++
      [Call (Open t2g) None;
       Call (GtfEntries gtf) None;
       Call (FastaSort fasta sorted_fasta) None;
       Call (GtfSort gtf sorted_gtf) None;
       Call (GenerateCdnaFasta sorted_fasta sorted_gtf cdna) (Some cdna_fasta);
       Call (Open ct2c) None;
       Call (FastaEntries cdna_fasta) None;
       Call (GenerateIntronFasta sorted_fasta sorted_gtf intron)
         (Some intron_fasta);
       Call (Open it2c) None;
       Call (FastaEntries intron_fasta) None;
       Call (ConcatenateFiles cdna_fasta intron_fasta
               (os_path_join tmp (COMBINED_FILENAME E)) tmp) (Some combined);
       Call GetKallistoBinaryPath (Some binary);
       Call (RunExecutable
               [AStr binary; AStr "index"; AStr "-i"; AStr idx; AStr "-k";
                AInt 31; AStr combined]) None] /\
    m = {[ "index" := idx; "intron_t2c" := it2c; "intron_fasta" := intron_fasta;
           "cdna_t2c" := ct2c; "cdna_fasta" := cdna_fasta; "t2g" := t2g ]} /\
    dom m = {[ "t2g"; "index"; "cdna_fasta"; "intron_fasta"; "cdna_t2c";
               "intron_t2c" ]}.
Proof.
  intros run sorted_fasta sorted_gtf Hm Hre. subst run.
  apply run_eq, ref_velocity_ok in Hm
    as [(Hs & Ho & _) | (_ & cf & inf & cp & b & -> & ->)].
  { by destruct (not_rebuild_skip _ _ Hs Ho). }
  exists cf, inf, cp, b. split_and!; [done | done |].
  rewrite !dom_insert_L, dom_singleton_L. set_solver.
Qed.

Lemma ref_velocity_rebuild_witness :
  let E := Demo.env ([Demo.rec1], None) ([("T1", "ACGT")], None)
             ([("T1-I", "AC")], None) in
  let run :=
    ref_velocity E "g.fa" "a.gtf" "cdna.fa" "intron.fa" "idx" "t2g.txt"
      "c.t2c" "i.t2c" "tmp" false in
  exists cdna_fasta intron_fasta combined binary,
    trace (run Demo.w0).1 = trace Demo.w0 ++
      [Call (Open "t2g.txt") None;
       Call (GtfEntries "a.gtf") None;
       Call (FastaSort "g.fa" "tmp/sorted.fa") None;
       Call (GtfSort "a.gtf" "tmp/sorted.gtf") None;
       Call (GenerateCdnaFasta "tmp/sorted.fa" "tmp/sorted.gtf" "cdna.fa")
         (Some cdna_fasta);
       Call (Open "c.t2c") None;
       Call (FastaEntries cdna_fasta) None;
       Call (GenerateIntronFasta "tmp/sorted.fa" "tmp/sorted.gtf" "intron.fa")
         (Some intron_fasta);
       Call (Open "i.t2c") None;
       Call (FastaEntries intron_fasta) None;
       Call (ConcatenateFiles cdna_fasta intron_fasta "tmp/combined.fa" "tmp")
         (Some combined);
       Call GetKallistoBinaryPath (Some binary);
       Call (RunExecutable
               [AStr binary; AStr "index"; AStr "-i"; AStr "idx"; AStr "-k";
                AInt 31; AStr combined]) None] /\
    ({[ "index" := "idx"; "intron_t2c" := "i.t2c"; "intron_fasta" := "intron.fa";
        "cdna_t2c" := "c.t2c"; "cdna_fasta" := "cdna.fa"; "t2g" := "t2g.txt" ]}
       : gmap string string) =
    {[ "index" := "idx"; "intron_t2c" := "i.t2c"; "intron_fasta" := intron_fasta;
       "cdna_t2c" := "c.t2c"; "cdna_fasta" := cdna_fasta; "t2g" := "t2g.txt" ]} /\
    dom ({[ "index" := "idx"; "intron_t2c" := "i.t2c";
            "intron_fasta" := "intron.fa"; "cdna_t2c" := "c.t2c";
            "cdna_fasta" := "cdna.fa"; "t2g" := "t2g.txt" ]}
           : gmap string string) =
    {[ "t2g"; "index"; "cdna_fasta"; "intron_fasta"; "cdna_t2c"; "intron_t2c" ]}.
Proof.
  apply (ref_velocity_rebuild
    (Demo.env ([Demo.rec1], None) ([("T1", "ACGT")], None) ([("T1-I", "AC")], None))
    "g.fa" "a.gtf" "cdna.fa" "intron.fa" "idx" "t2g.txt" "c.t2c" "i.t2c" "tmp"
    false Demo.w0).
  - vm_compute. reflexivity.
  - left. vm_compute. reflexivity.
Defined.


(** * Further properties of the module *)

(** ** More on what the loop writes *)

Lemma t2g_text_app intron good l s :
  t2g_text intron good = (s, None) ->
  t2g_text intron (good ++ l) =
  (s +:+ (t2g_text intron l).1, (t2g_text intron l).2).
Proof.
  revert s. induction good as [|e good IH]; intros s; simpl.
  { intros [= <-]. by destruct (t2g_text intron l). }
  case_bool_decide; [|by apply IH].
  destruct (group e !! "transcript_id"); [|done].
  destruct (group e !! "gene_id"); [|done].
  destruct (t2g_text intron good) as [rest stop].
  intros [= <- ->]. rewrite (IH rest eq_refl). by rewrite append_assoc.
Qed.

Lemma t2g_text_bad_head intron bad rest :
  feature bad = "transcript" -> spec_fields bad = None ->
  t2g_text intron (bad :: rest) =
  ("", Some (match group bad !! "transcript_id" with
             | Some _ => "gene_id"
             | None => "transcript_id"
             end)).
Proof.
  intros Hf Hs. simpl. rewrite bool_decide_eq_true_2 by done.
  unfold spec_fields in Hs.
  destruct (group bad !! "transcript_id"); [|done].
  by destruct (group bad !! "gene_id").
Qed.

Lemma t2g_text_stop_intron es : (t2g_text true es).2 = (t2g_text false es).2.
Proof.
  induction es as [|e es IH]; simpl; [done|].
  case_bool_decide; [|done].
  destruct (group e !! "transcript_id"); [|done].
  destruct (group e !! "gene_id"); [|done].
  by destruct (t2g_text true es), (t2g_text false es).
Qed.

Lemma t2g_text_no_transcript intron es :
  Forall (fun e => feature e <> "transcript") es -> t2g_text intron es = ("", None).
Proof.
  induction 1 as [|e es He _ IH]; simpl; [done|].
  by rewrite bool_decide_eq_false_2.
Qed.

Lemma create_t2c_other E fasta p w q :
  q <> p -> fs (create_t2c E fasta p w).1 !! q = fs w !! q.
Proof.
  intros Hq. rewrite create_t2c_run.
  destruct (writable E (fs w) p); [|done]. cbv zeta.
  destruct (FASTA_entries E _ fasta).2; by apply lookup_insert_ne.
Qed.

Lemma create_t2g_from_gtf_log E gtf p intron w :
  log (create_t2g_from_gtf E gtf p intron w).1 = log w.
Proof.
  rewrite create_t2g_from_gtf_run.
  destruct (writable E (fs w) p); [|done]. cbv zeta.
  destruct (t2g_text intron _) as [s [k|]]; [done|].
  by destruct (GTF_entries E _ gtf).2.
Qed.

Lemma create_t2g_from_gtf_same_outcome E gtf p w :
  (create_t2g_from_gtf E gtf p false w).2 = (create_t2g_from_gtf E gtf p true w).2.
Proof.
  rewrite !create_t2g_from_gtf_run.
  destruct (writable E (fs w) p); [|done]. cbv zeta.
  pose proof (t2g_text_stop_intron (GTF_entries E (<[p:=""]> (fs w)) gtf).1) as H.
  destruct (t2g_text true _) as [s1 k1], (t2g_text false _) as [s2 k2].
  simpl in H. subst k2. destruct k1; [done|].
  by destruct (GTF_entries E _ gtf).2.
Qed.

(** ** The writers and the storage *)

(** X2.  The writers truncate: whatever the output file held before the
    call has no part in the outcome.  When the file can be opened with or
    without an earlier content [c], the call from the world that has [c] at
    the output path ends in the same world, with the same result, as the
    call from the world it was given. *)
Theorem writers_discard_old_content E src p intron w c :
  writable E (fs w) p = true ->
  writable E (<[p := c]> (fs w)) p = true ->
  create_t2g_from_gtf E src p intron (set_fs (<[p := c]> (fs w)) w) =
    create_t2g_from_gtf E src p intron w /\
  create_t2c E src p (set_fs (<[p := c]> (fs w)) w) = create_t2c E src p w.
Proof.
  intros Hw Hc. split.
  - rewrite !create_t2g_from_gtf_run, fs_set_fs, Hw, Hc. cbv zeta.
    rewrite insert_insert_eq.
    destruct (t2g_text intron _) as [s [k|]]; rewrite insert_insert_eq; [done|].
    by destruct (GTF_entries E _ src).2.
  - rewrite !create_t2c_run, fs_set_fs, Hw, Hc. cbv zeta.
    rewrite !insert_insert_eq.
    by destruct (FASTA_entries E _ src).2.
Qed.

Lemma writers_discard_old_content_witness :
  let E := Demo.env ([Demo.rec1], None) ([("T1", "ACGT")], None) ([], None) in
  create_t2g_from_gtf E "cdna.fa" "out" true
    (set_fs (<["out" := "stale"]> (fs Demo.w0)) Demo.w0) =
    create_t2g_from_gtf E "cdna.fa" "out" true Demo.w0 /\
  create_t2c E "cdna.fa" "out" (set_fs (<["out" := "stale"]> (fs Demo.w0)) Demo.w0)
    = create_t2c E "cdna.fa" "out" Demo.w0.
Proof.
  apply (writers_discard_old_content
    (Demo.env ([Demo.rec1], None) ([("T1", "ACGT")], None) ([], None))
    "cdna.fa" "out" true Demo.w0 "stale"); reflexivity.
Defined.

(** X3.  A writer touches its output file and nothing else: every other
    path holds after the call what it held before, whether the call
    returns or raises. *)
Theorem writers_touch_only_output E src p intron w q :
  q <> p ->
  fs (create_t2g_from_gtf E src p intron w).1 !! q = fs w !! q /\
  fs (create_t2c E src p w).1 !! q = fs w !! q.
Proof.
  intros Hq. split; [by apply create_t2g_from_gtf_other | by apply create_t2c_other].
Qed.

Lemma writers_touch_only_output_witness :
  let E := Demo.env ([Demo.rec1; Demo.no_gene_id], None) ([("T1", "ACGT")], None)
             ([], None) in
  let w := {| fs := {[ "idx" := "old" ]}; trace := []; log := [] |} in
  fs (create_t2g_from_gtf E "a.gtf" "out" true w).1 !! "idx" = fs w !! "idx" /\
  fs (create_t2c E "a.gtf" "out" w).1 !! "idx" = fs w !! "idx".
Proof.
  apply (writers_touch_only_output
    (Demo.env ([Demo.rec1; Demo.no_gene_id], None) ([("T1", "ACGT")], None)
       ([], None))
    "a.gtf" "out" true
    {| fs := {[ "idx" := "old" ]}; trace := []; log := [] |} "idx").
  discriminate.
Defined.

(** ** Errors and edges of the writers *)

(** X4.  The rows written before a failure stay in the file.  When the
    source yields records [good] whose transcript records all have both
    identifiers and then a transcript record [bad] that lacks one, the call
    raises the [KeyError] of [transcript_id] if that one is missing and of
    [gene_id] otherwise, and the file holds exactly the lines of the
    transcript records of [good]. *)
Theorem create_t2g_from_gtf_partial_file E gtf p intron w good bad rest :
  writable E (fs w) p = true ->
  (GTF_entries E (<[p := ""]> (fs w)) gtf).1 = good ++ bad :: rest ->
  (forall e, e ∈ good -> feature e = "transcript" ->
     is_Some (group e !! "transcript_id") /\ is_Some (group e !! "gene_id")) ->
  feature bad = "transcript" ->
  spec_fields bad = None ->
  let out := create_t2g_from_gtf E gtf p intron w in
  out.2 = Err (KeyError (match group bad !! "transcript_id" with
                         | Some _ => "gene_id"
                         | None => "transcript_id"
                         end)) /\
  exists rows,
    Forall2 (fun e r => spec_fields e = Some r) (filter is_transcript good) rows /\
    fs out.1 !! p = Some (written (flat_map (spec_lines intron) rows)).
Proof.
  intros Hw Hes Hgood Hf Hbad out. subst out.
  rewrite create_t2g_from_gtf_run, Hw. cbv zeta. rewrite Hes.
  destruct (t2g_text_good intron good Hgood) as [s Hs].
  rewrite (t2g_text_app _ _ _ _ Hs), (t2g_text_bad_head _ _ _ Hf Hbad).
  simpl. rewrite append_nil_r. split; [done|].
  destruct (t2g_text_rows _ _ _ Hs) as (rows & HF & ->).
  exists rows. split; [done | apply lookup_insert_eq].
Qed.

Lemma create_t2g_from_gtf_partial_file_witness :
  let E := Demo.env ([Demo.rec1; Demo.rec2; Demo.no_gene_id; Demo.rec3], None)
             ([], None) ([], None) in
  let out := create_t2g_from_gtf E "a.gtf" "t2g.txt" false Demo.w0 in
  out.2 = Err (KeyError "gene_id") /\
  exists rows,
    Forall2 (fun e r => spec_fields e = Some r)
      (filter is_transcript [Demo.rec1; Demo.rec2]) rows /\
    fs out.1 !! "t2g.txt" = Some (written (flat_map (spec_lines false) rows)).
Proof.
  apply (create_t2g_from_gtf_partial_file
    (Demo.env ([Demo.rec1; Demo.rec2; Demo.no_gene_id; Demo.rec3], None)
       ([], None) ([], None))
    "a.gtf" "t2g.txt" false Demo.w0 [Demo.rec1; Demo.rec2] Demo.no_gene_id
    [Demo.rec3]); try reflexivity.
  intros e He Hf.
  apply elem_of_cons in He as [-> | He].
  { split; eexists; vm_compute; reflexivity. }
  apply elem_of_cons in He as [-> | He]; [discriminate Hf|].
  by apply elem_of_nil in He.
Defined.

(** X5.  When the output file cannot be opened, a writer raises the I/O
    error of the open, writes nothing and does not read its source: the
    storage is the one it was given and the failed open is the only call
    it made. *)
Theorem writers_unwritable_output E src p intron w :
  writable E (fs w) p = false ->
  create_t2g_from_gtf E src p intron w =
    ({| fs := fs w; trace := trace w ++ [Fail (Open p) (IOError p)];
        log := log w |}, Err (IOError p)) /\
  create_t2c E src p w =
    ({| fs := fs w; trace := trace w ++ [Fail (Open p) (IOError p)];
        log := log w |}, Err (IOError p)).
Proof.
  intros Hw. by rewrite create_t2g_from_gtf_run, create_t2c_run, Hw.
Qed.

Lemma writers_unwritable_output_witness :
  let E := Demo.env ([Demo.rec1], None) ([("T1", "ACGT")], None) ([], None) in
  create_t2g_from_gtf E "a.gtf" "" false Demo.w0 =
    ({| fs := ∅; trace := [Fail (Open "") (IOError "")]; log := [] |},
     Err (IOError "")) /\
  create_t2c E "a.gtf" "" Demo.w0 =
    ({| fs := ∅; trace := [Fail (Open "") (IOError "")]; log := [] |},
     Err (IOError "")).
Proof.
  apply (writers_unwritable_output
    (Demo.env ([Demo.rec1], None) ([("T1", "ACGT")], None) ([], None))
    "a.gtf" "" false Demo.w0).
  reflexivity.
Defined.

(** X6.  A source without a transcript record, the empty source among
    them, gives an empty file: the call returns, the output path exists
    afterwards and holds nothing, and records of other features are not
    looked into, whatever attributes they lack. *)
Theorem create_t2g_from_gtf_no_transcript E gtf p intron w :
  writable E (fs w) p = true ->
  (GTF_entries E (<[p := ""]> (fs w)) gtf).2 = None ->
  Forall (fun e => feature e <> "transcript")
    (GTF_entries E (<[p := ""]> (fs w)) gtf).1 ->
  let out := create_t2g_from_gtf E gtf p intron w in
  out.2 = Ok {[ "t2g" := p ]} /\
  fs out.1 !! p = Some "" /\
  (os_path_exists p out.1).2 = Ok true.
Proof.
  intros Hw Hstop Hno out. subst out.
  rewrite create_t2g_from_gtf_run, Hw. cbv zeta.
  rewrite (t2g_text_no_transcript _ _ Hno), Hstop. simpl.
  rewrite lookup_insert_eq. split_and!; [done | done |].
  unfold os_path_exists. simpl. done.
Qed.

Lemma create_t2g_from_gtf_no_transcript_witness :
  let E := Demo.env ([Demo.rec2; {| feature := "gene"; group := ∅ |}], None)
             ([], None) ([], None) in
  let out := create_t2g_from_gtf E "a.gtf" "t2g.txt" true Demo.w0 in
  out.2 = Ok {[ "t2g" := "t2g.txt" ]} /\
  fs out.1 !! "t2g.txt" = Some "" /\
  (os_path_exists "t2g.txt" out.1).2 = Ok true.
Proof.
  apply (create_t2g_from_gtf_no_transcript
    (Demo.env ([Demo.rec2; {| feature := "gene"; group := ∅ |}], None)
       ([], None) ([], None))
    "a.gtf" "t2g.txt" true Demo.w0); [reflexivity | reflexivity |].
  repeat constructor; discriminate.
Defined.

(** X7.  The [intron] flag changes what is written and nothing else: with
    it or without it the call makes the same calls, returns the same
    mapping or raises the same error, and leaves the same content at every
    path but the output. *)
Theorem create_t2g_from_gtf_intron_outcome E gtf p w :
  let with_intron := create_t2g_from_gtf E gtf p true w in
  let without := create_t2g_from_gtf E gtf p false w in
  with_intron.2 = without.2 /\
  trace with_intron.1 = trace without.1 /\
  (forall q, q <> p -> fs with_intron.1 !! q = fs without.1 !! q).
Proof.
  intros wi wo. subst wi wo. split_and!.
  - rewrite !create_t2g_from_gtf_run.
    destruct (writable E (fs w) p); [|done]. cbv zeta.
    pose proof (t2g_text_stop_intron (GTF_entries E (<[p:=""]> (fs w)) gtf).1) as H.
    destruct (t2g_text true _) as [s1 k1], (t2g_text false _) as [s2 k2].
    simpl in H. subst k2. destruct k1; [done|].
    by destruct (GTF_entries E _ gtf).2.
  - rewrite !create_t2g_from_gtf_run.
    destruct (writable E (fs w) p); [|done]. cbv zeta.
    pose proof (t2g_text_stop_intron (GTF_entries E (<[p:=""]> (fs w)) gtf).1) as H.
    destruct (t2g_text true _) as [s1 k1], (t2g_text false _) as [s2 k2].
    simpl in H. subst k2. destruct k1; [done|].
    by destruct (GTF_entries E _ gtf).2.
  - intros q Hq. by rewrite !create_t2g_from_gtf_other.
Qed.

Lemma create_t2g_from_gtf_intron_outcome_witness :
  let E := Demo.env ([Demo.rec1; Demo.no_gene_id], None) ([], None) ([], None) in
  let w := {| fs := {[ "idx" := "old" ]}; trace := []; log := [] |} in
  (create_t2g_from_gtf E "a.gtf" "out" true w).2 =
    (create_t2g_from_gtf E "a.gtf" "out" false w).2 /\
  fs (create_t2g_from_gtf E "a.gtf" "out" true w).1 !! "idx" =
    fs (create_t2g_from_gtf E "a.gtf" "out" false w).1 !! "idx".
Proof.
  intros E w.
  destruct (create_t2g_from_gtf_intron_outcome E "a.gtf" "out" w)
    as (Hr & _ & Hq).
  split; [exact Hr | apply Hq; discriminate].
Defined.

(** X10.  A call of [create_t2c] that returns gives the mapping with the
    one key ['t2c'], whose value is the output path; it returns exactly
    when the output file opens and the source is read to its end. *)
Theorem create_t2c_returns E fasta p w :
  let out := create_t2c E fasta p w in
  (forall m, out.2 = Ok m -> m = {[ "t2c" := p ]}) /\
  ((exists m, out.2 = Ok m) <->
   writable E (fs w) p = true /\
   (FASTA_entries E (<[p := ""]> (fs w)) fasta).2 = None).
Proof.
  intros out. subst out. rewrite create_t2c_run.
  destruct (writable E (fs w) p); cbv zeta.
  - destruct (FASTA_entries E _ fasta).2 as [e|]; simpl.
    + split; [done|]. split; [by intros [? ?] | by intros [_ ?]].
    + split; [by intros m [= <-]|]. split; [done | by eauto].
  - split; [done|]. split; [by intros [? ?] | by intros [? _]].
Qed.

Lemma create_t2c_returns_witness :
  let E := Demo.env ([], None) ([("T1", "ACGT")], None) ([], None) in
  ({[ "t2c" := "c.t2c" ]} : gmap string string) = {[ "t2c" := "c.t2c" ]} /\
  exists m, (create_t2c E "cdna.fa" "c.t2c" Demo.w0).2 = Ok m.
Proof.
  intros E.
  destruct (create_t2c_returns E "cdna.fa" "c.t2c" Demo.w0) as [Hm Hiff].
  split.
  - apply Hm. vm_compute. reflexivity.
  - apply Hiff. split; reflexivity.
Defined.

(** X11.  The sort helpers make one call, the sort of their source into
    [out_path]; when it returns they return [out_path] itself, and when it
    raises they raise its error. *)
Theorem sort_helpers_pass_through E src out_path w :
  (let r := FASTA_sort E src out_path (fs w) in
   sort_fasta E src out_path w =
   match r.2 with
   | Ok _ =>
       ({| fs := r.1; trace := trace w ++ [Call (FastaSort src out_path) None];
           log := log w |}, Ok out_path)
   | Err e =>
       ({| fs := r.1; trace := trace w ++ [Fail (FastaSort src out_path) e];
           log := log w |}, Err e)
   end) /\
  (let r := GTF_sort E src out_path (fs w) in
   sort_gtf E src out_path w =
   match r.2 with
   | Ok _ =>
       ({| fs := r.1; trace := trace w ++ [Call (GtfSort src out_path) None];
           log := log w |}, Ok out_path)
   | Err e =>
       ({| fs := r.1; trace := trace w ++ [Fail (GtfSort src out_path) e];
           log := log w |}, Err e)
   end).
Proof.
  split; cbv zeta.
  - unfold sort_fasta, bind, ext.
    by destruct (FASTA_sort E src out_path (fs w)) as [f [[]|e]].
  - unfold sort_gtf, bind, ext.
    by destruct (GTF_sort E src out_path (fs w)) as [f [[]|e]].
Qed.

(** X9.  Run on their own, the two writers and [kallisto_index] stop at
    their first error as the pipelines do: an event that raises is their
    last event, and its error is what the caller gets. *)
Theorem steps_abort_on_error E src p intron fasta idx k w :
  quiet (trace w) ->
  aborts_on_error (create_t2g_from_gtf E src p intron) w /\
  aborts_on_error (create_t2c E src p) w /\
  aborts_on_error (kallisto_index E fasta idx k) w.
Proof.
  intros Hq. split_and!; apply stops_aborts;
    auto using stops_create_t2g_from_gtf, stops_create_t2c, stops_kallisto_index.
Qed.

Lemma steps_abort_on_error_witness :
  let E := Demo.env ([Demo.rec1], Some (IOError "a.gtf")) ([], None) ([], None) in
  let out := create_t2g_from_gtf E "a.gtf" "t2g.txt" false Demo.w0 in
  out.2 = Err (IOError "a.gtf") /\ returned PyDict out = None.
Proof.
  intros E out.
  destruct (steps_abort_on_error E "a.gtf" "t2g.txt" false "cdna.fa" "idx" None
    Demo.w0) as [[Hlast _] _]; [constructor|].
  destruct (Hlast [Call (Open "t2g.txt") None; Call (GtfEntries "a.gtf") None]
    (Fail (GtfEntries "a.gtf") (IOError "a.gtf")) [] (IOError "a.gtf"))
    as (_ & Hr & Hn); [vm_compute; reflexivity | reflexivity |].
  split; [exact Hr | exact Hn].
Defined.

(** ** More on the pipelines *)

(** X1.  A run of [ref] that rebuilds and returns has made these calls in
    this order: the two of the [t2g] step, the sort of the FASTA and of the
    GTF into the scratch directory, the cDNA extraction on the two sorted
    files, and the index tool on the file the extraction returned.  Its
    manifest has the two keys ['t2g'] and ['index'], with the paths the
    caller gave. *)
Theorem ref_rebuild E fasta gtf cdna idx t2g tmp overwrite w m :
  let run := ref E fasta gtf cdna idx t2g tmp overwrite in
  let sorted_fasta := os_path_join tmp (SORTED_FASTA_FILENAME E) in
  let sorted_gtf := os_path_join tmp (SORTED_GTF_FILENAME E) in
  (run w).2 = Ok m ->
  fs (create_t2g_from_gtf E gtf t2g false w).1 !! idx = None \/ overwrite = true ->
  exists cdna_fasta binary,
    trace (run w).1 = trace w ++
      [Call (Open t2g) None;
       Call (GtfEntries gtf) None;
       Call (FastaSort fasta sorted_fasta) None;
       Call (GtfSort gtf sorted_gtf) None;
       Call (GenerateCdnaFasta sorted_fasta sorted_gtf cdna) (Some cdna_fasta);
       Call GetKallistoBinaryPath (Some binary);
       Call (RunExecutable
               [AStr binary; AStr "index"; AStr "-i"; AStr idx; AStr "-k";
                AInt 31; AStr cdna_fasta]) None] /\
    m = {[ "index" := idx; "t2g" := t2g ]} /\
    dom m = {[ "t2g"; "index" ]}.
Proof.
  intros run sorted_fasta sorted_gtf Hm Hre. subst run.
  apply run_eq, ref_ok in Hm as [(Hs & Ho & _) | (_ & cf & b & -> & ->)].
  { by destruct (not_rebuild_skip _ _ Hs Ho). }
  exists cf, b. split_and!; [done | done |].
  rewrite dom_insert_L, dom_singleton_L. set_solver.
Qed.

Lemma ref_rebuild_witness :
  let E := Demo.env ([Demo.rec3], None) ([], None) ([], None) in
  let run := ref E "g.fa" "a.gtf" "cdna.fa" "idx" "t2g.txt" "tmp" false in
  exists cdna_fasta binary,
    trace (run Demo.w0).1 = trace Demo.w0 ++
      [Call (Open "t2g.txt") None;
       Call (GtfEntries "a.gtf") None;
       Call (FastaSort "g.fa" "tmp/sorted.fa") None;
       Call (GtfSort "a.gtf" "tmp/sorted.gtf") None;
       Call (GenerateCdnaFasta "tmp/sorted.fa" "tmp/sorted.gtf" "cdna.fa")
         (Some cdna_fasta);
       Call GetKallistoBinaryPath (Some binary);
       Call (RunExecutable
               [AStr binary; AStr "index"; AStr "-i"; AStr "idx"; AStr "-k";
                AInt 31; AStr cdna_fasta]) None] /\
    ({[ "index" := "idx"; "t2g" := "t2g.txt" ]} : gmap string string) =
      {[ "index" := "idx"; "t2g" := "t2g.txt" ]} /\
    dom ({[ "index" := "idx"; "t2g" := "t2g.txt" ]} : gmap string string) =
      {[ "t2g"; "index" ]}.
Proof.
  apply (ref_rebuild (Demo.env ([Demo.rec3], None) ([], None) ([], None))
    "g.fa" "a.gtf" "cdna.fa" "idx" "t2g.txt" "tmp" false Demo.w0).
  - vm_compute. reflexivity.
  - left. vm_compute. reflexivity.
Defined.

(** X8.  A run that skips the rebuild leaves the storage as the [t2g] step
    left it: it ends in the world of that step with two lines more in the
    log, the notice of the [t2g] step and the notice of the skip, so no
    path but the [t2g] path has changed since the run began. *)
Theorem skip_leaves_storage E fasta gtf cdna intron idx t2g ct2c it2c tmp w m1 :
  (create_t2g_from_gtf E gtf t2g false w).2 = Ok m1 ->
  is_Some (fs (create_t2g_from_gtf E gtf t2g false w).1 !! idx) ->
  let notice := "Creating transcript-to-gene mapping at " +:+ t2g in
  let run := ref E fasta gtf cdna idx t2g tmp false in
  let run_velocity :=
    ref_velocity E fasta gtf cdna intron idx t2g ct2c it2c tmp false in
  run w =
    (add_log (skip_notice idx)
       (add_log notice (create_t2g_from_gtf E gtf t2g false w).1),
     Ok {[ "t2g" := t2g ]}) /\
  run_velocity w =
    (add_log (skip_notice idx)
       (add_log notice (create_t2g_from_gtf E gtf t2g true w).1),
     Ok {[ "t2g" := t2g ]}) /\
  (forall q, q <> t2g ->
     fs (run w).1 !! q = fs w !! q /\ fs (run_velocity w).1 !! q = fs w !! q).
Proof.
  intros H1 Hidx notice run run_velocity. subst notice run run_velocity.
  pose proof H1 as H2. rewrite create_t2g_from_gtf_same_outcome in H2.
  assert (Hidx2 : is_Some (fs (create_t2g_from_gtf E gtf t2g true w).1 !! idx)).
  { destruct (decide (idx = t2g)) as [-> | Hne].
    - apply run_eq, create_t2g_from_gtf_inv in H2 as (_ & _ & ->).
      rewrite lookup_insert_eq. by eexists.
    - rewrite create_t2g_from_gtf_other by done.
      by rewrite create_t2g_from_gtf_other in Hidx. }
  pose proof (run_eq _ _ _ H1) as H1'.
  apply create_t2g_from_gtf_inv in H1' as (-> & _ & _).
  assert (Hr : ref E fasta gtf cdna idx t2g tmp false w =
    (add_log (skip_notice idx)
       (add_log ("Creating transcript-to-gene mapping at " +:+ t2g)
          (create_t2g_from_gtf E gtf t2g false w).1),
     Ok {[ "t2g" := t2g ]})).
  { unfold ref. rewrite bind_logger_info. unfold bind at 1.
    rewrite create_t2g_from_gtf_add_log, H1. cbv iota beta.
    rewrite bind_os_path_exists, fs_add_log.
    rewrite bool_decide_eq_true_2 by done. simpl.
    by rewrite union_singleton_empty. }
  assert (Hv : ref_velocity E fasta gtf cdna intron idx t2g ct2c it2c tmp false w =
    (add_log (skip_notice idx)
       (add_log ("Creating transcript-to-gene mapping at " +:+ t2g)
          (create_t2g_from_gtf E gtf t2g true w).1),
     Ok {[ "t2g" := t2g ]})).
  { unfold ref_velocity. rewrite bind_logger_info. unfold bind at 1.
    rewrite create_t2g_from_gtf_add_log, H2. cbv iota beta.
    rewrite bind_os_path_exists, fs_add_log.
    rewrite bool_decide_eq_true_2 by done. simpl.
    by rewrite union_singleton_empty. }
  split_and!; [done | done |].
  intros q Hq. rewrite Hr, Hv. cbn [fst]. rewrite !fs_add_log.
  by rewrite !create_t2g_from_gtf_other.
Qed.

Lemma skip_leaves_storage_witness :
  let E := Demo.env ([Demo.rec1], None) ([], None) ([], None) in
  let w := {| fs := {[ "idx" := "old" ]}; trace := []; log := [] |} in
  fs (ref E "g.fa" "a.gtf" "cdna.fa" "idx" "t2g.txt" "tmp" false w).1 !! "idx"
    = Some "old" /\
  fs (ref_velocity E "g.fa" "a.gtf" "cdna.fa" "intron.fa" "idx" "t2g.txt"
        "c.t2c" "i.t2c" "tmp" false w).1 !! "idx" = Some "old".
Proof.
  intros E w.
  destruct (skip_leaves_storage E "g.fa" "a.gtf" "cdna.fa" "intron.fa" "idx"
    "t2g.txt" "c.t2c" "i.t2c" "tmp" w {[ "t2g" := "t2g.txt" ]}) as (_ & _ & Hq);
    [vm_compute; reflexivity | exists "old"; vm_compute; reflexivity |].
  apply (Hq "idx"). discriminate.
Defined.

(** X12.  When the [t2g] step raises, the pipeline raises the same error
    and does nothing more: the storage is not looked at, no later call is
    made, and the run ends in the world the step left, with the notice of
    the step in the log. *)
Theorem t2g_failure_ends_the_run E fasta gtf cdna intron idx t2g ct2c it2c tmp
    overwrite w e :
  (create_t2g_from_gtf E gtf t2g false w).2 = Err e ->
  let notice := "Creating transcript-to-gene mapping at " +:+ t2g in
  ref E fasta gtf cdna idx t2g tmp overwrite w =
    (add_log notice (create_t2g_from_gtf E gtf t2g false w).1, Err e) /\
  ref_velocity E fasta gtf cdna intron idx t2g ct2c it2c tmp overwrite w =
    (add_log notice (create_t2g_from_gtf E gtf t2g true w).1, Err e).
Proof.
  intros H1 notice. subst notice.
  pose proof H1 as H2. rewrite create_t2g_from_gtf_same_outcome in H2. split.
  - unfold ref. rewrite bind_logger_info. unfold bind at 1.
    by rewrite create_t2g_from_gtf_add_log, H1.
  - unfold ref_velocity. rewrite bind_logger_info. unfold bind at 1.
    by rewrite create_t2g_from_gtf_add_log, H2.
Qed.

Lemma t2g_failure_ends_the_run_witness :
  let E := Demo.env ([Demo.no_gene_id], None) ([], None) ([], None) in
  (ref E "g.fa" "a.gtf" "cdna.fa" "idx" "t2g.txt" "tmp" true Demo.w0).2
    = Err (KeyError "gene_id") /\
  (ref_velocity E "g.fa" "a.gtf" "cdna.fa" "intron.fa" "idx" "t2g.txt" "c.t2c"
     "i.t2c" "tmp" true Demo.w0).2 = Err (KeyError "gene_id").
Proof.
  intros E.
  destruct (t2g_failure_ends_the_run E "g.fa" "a.gtf" "cdna.fa" "intron.fa"
    "idx" "t2g.txt" "c.t2c" "i.t2c" "tmp" true Demo.w0 (KeyError "gene_id"))
    as (Hr & Hv); [vm_compute; reflexivity |].
  rewrite Hr, Hv. split; reflexivity.
Defined.

(** X13.  When the source raises after yielding some records, the writer
    raises that error and keeps what it wrote: [create_t2c] leaves the
    lines of the ids read so far, and [create_t2g_from_gtf], the records
    read so far having their identifiers, leaves their rows; the last event
    is the failed read. *)
Theorem writers_source_failure E src p intron w e :
  writable E (fs w) p = true ->
  (FASTA_entries E (<[p := ""]> (fs w)) src).2 = Some e ->
  (GTF_entries E (<[p := ""]> (fs w)) src).2 = Some e ->
  (forall r, r ∈ (GTF_entries E (<[p := ""]> (fs w)) src).1 ->
     feature r = "transcript" ->
     is_Some (group r !! "transcript_id") /\ is_Some (group r !! "gene_id")) ->
  let t2c := create_t2c E src p w in
  let t2g := create_t2g_from_gtf E src p intron w in
  (t2c.2 = Err e /\
   fs t2c.1 !! p =
     Some (written (map (fun i => i +:+ "
") (map fst (FASTA_entries E (<[p := ""]> (fs w)) src).1))) /\
   trace t2c.1 = trace w ++ [Call (Open p) None; Call (FastaEntries src) None;
                             Fail (FastaEntries src) e]) /\
  (t2g.2 = Err e /\
   (exists rows,
      Forall2 (fun r row => spec_fields r = Some row)
        (filter is_transcript (GTF_entries E (<[p := ""]> (fs w)) src).1) rows /\
      fs t2g.1 !! p = Some (written (flat_map (spec_lines intron) rows))) /\
   trace t2g.1 = trace w ++ [Call (Open p) None; Call (GtfEntries src) None;
                             Fail (GtfEntries src) e]).
Proof.
  intros Hw Hfa Hgtf Hgood t2c t2g. subst t2c t2g. split.
  - rewrite create_t2c_run, Hw. cbv zeta. rewrite Hfa. simpl.
    by rewrite lookup_insert_eq, t2c_text_ids.
  - rewrite create_t2g_from_gtf_run, Hw. cbv zeta.
    destruct (t2g_text_good intron _ Hgood) as [s Hs].
    rewrite Hs, Hgtf. simpl. split_and!; [done | | done].
    destruct (t2g_text_rows _ _ _ Hs) as (rows & HF & ->).
    exists rows. split; [done | apply lookup_insert_eq].
Qed.

Lemma writers_source_failure_witness :
  let E := Demo.env ([Demo.rec1; Demo.rec2], Some (IOError "x"))
             ([("T1", "ACGT"); ("T2", "GG")], Some (IOError "x")) ([], None) in
  (create_t2c E "cdna.fa" "out" Demo.w0).2 = Err (IOError "x") /\
  fs (create_t2c E "cdna.fa" "out" Demo.w0).1 !! "out" = Some "T1
T2
" /\
  (create_t2g_from_gtf E "cdna.fa" "out" true Demo.w0).2 = Err (IOError "x").
Proof.
  intros E.
  destruct (writers_source_failure E "cdna.fa" "out" true Demo.w0 (IOError "x"))
    as [(Hc & Hf & _) (Hg & _ & _)]; [reflexivity | reflexivity | reflexivity | |].
  { intros r Hr Hfe. simpl in Hr.
    apply elem_of_cons in Hr as [-> | Hr].
    { split; eexists; vm_compute; reflexivity. }
    apply elem_of_cons in Hr as [-> | Hr]; [discriminate Hfe|].
    by apply elem_of_nil in Hr. }
  split; [exact Hc | split; [exact Hf | exact Hg]].
Defined.
